(** * Statistical anomaly trigger of the incident manager

    A shallow embedding of [src/triggers.py] ([WindowTrigger.__init__],
    [WindowTrigger.check], [generate_mock_timeseries], [detect_anomalies]),
    of the record [MetricAnomaly] of [src/models.py], and of the incident
    window and the upload destination of [src/main.py].

    Python's [float] is the IEEE 754 binary64 format; it is modelled by
    Rocq's primitive [float], whose operations are the same correctly
    rounded binary64 operations (round to nearest, ties to even).  The
    builtins the code calls ([sum], [**], [math.sqrt], [round]) are modelled
    after their CPython implementations, including the exceptions they
    raise.  The one operation CPython leaves to the C library, [pow], is a
    parameter of the model. *)

From Stdlib Require Import ZArith List String Bool Lia Floats.
From Stdlib Require Ascii Sorted.
Import ListNotations.

Set Warnings "-inexact-float".
Local Open Scope float_scope.

(** ** Outcomes of a call: a value or a raised exception *)

Inductive exn : Type :=
| OverflowError
| ValueError.

Inductive outcome (A : Type) : Type :=
| Returned (a : A)
| Raised (e : exn).

Arguments Returned {A} a.
Arguments Raised {A} e.

(** ** Python's float builtins *)

Module PyFloat.

(** Whether the square of the finite [x] is itself a float: the exact
    product of the mantissas against the rounded product. *)
Definition square_exact (x : float) : bool :=
  match Prim2SF x, Prim2SF (x * x) with
  | S754_finite _ m e, S754_finite _ m' e' =>
      let b := Z.min (2 * e) e' in
      (Z.pos (m * m) * 2 ^ (2 * e - b) =? Z.pos m' * 2 ^ (e' - b))%Z
  | _, _ => false
  end.

(** The C library under the interpreter, as far as [**] needs it:
    [libm_pow2 x] is what [pow(x, 2.0)] returns.  It is not the correctly
    rounded square in general (glibc's [pow] is off by one unit in the last
    place on some arguments); it is accurate to less than one unit in the
    last place, so it is the square itself whenever the square is a float,
    and it is never negative. *)
Record Libm : Type := {
  libm_pow2 : float -> float;
  libm_pow2_exact : forall x, square_exact x = true -> libm_pow2 x = x * x;
  libm_pow2_sign : forall x, (libm_pow2 x <? 0) = false
}.

(** [x ** 2] on a float, after CPython's [float_pow] with exponent [2.0]:
    a NaN is returned as it is, an infinity gives [+inf], a zero gives
    [0.0], [1.0] gives [1.0]; otherwise the C library's [pow(|x|, 2.0)]
    is called and an infinite result raises [OverflowError].  An underflow
    to zero is not an error. *)
Definition pow2 (L : Libm) (iv : float) : outcome float :=
  if is_nan iv then Returned iv
  else if is_infinity iv then Returned (abs iv)
  else if iv =? 0 then Returned 0
  else
    let iv := abs iv in
    if iv =? 1 then Returned 1
    else
      let ix := libm_pow2 L iv in
      if is_infinity ix then Raised OverflowError else Returned ix.

(** [math.sqrt]: a NaN result from an argument that is not a NaN (a
    negative argument) raises [ValueError]. *)
Definition math_sqrt (x : float) : outcome float :=
  let r := sqrt x in
  if is_nan r && negb (is_nan x) then Raised ValueError else Returned r.

(** [len(values)] converted to a float for [float / int]: the correctly
    rounded conversion of the integer. *)
Definition of_len (n : nat) : float :=
  SF2Prim (binary_normalize prec emax (Z.of_nat n) 0 false).

(** [sum] over floats, starting from the integer [0].  Up to CPython 3.11
    the floats are added from left to right. *)
Definition sum_naive (l : list float) : float := fold_left add l 0.

(** From CPython 3.12 on, [sum] adds with Neumaier's compensation: [c]
    collects the rounding errors and is added at the end when it is
    non-zero and finite. *)
Fixpoint neumaier (f_result c : float) (l : list float) : float :=
  match l with
  | [] => if negb (c =? 0) && is_finite c then f_result + c else f_result
  | x :: l' =>
      let t := f_result + x in
      let c' :=
        if abs x <=? abs f_result
        then c + ((f_result - t) + x)
        else c + ((x - t) + f_result) in
      neumaier t c' l'
  end.

Definition sum_compensated (l : list float) : float :=
  match l with
  | [] => 0
  | x :: l' => neumaier (0 + x) 0 l'
  end.

Definition sum (compensated : bool) (l : list float) : float :=
  if compensated then sum_compensated l else sum_naive l.

(** The integer nearest to [a / b] for [b > 0], ties to the even one. *)
Definition div_half_even (a b : Z) : Z :=
  let q := (a / b)%Z in
  let r := (a mod b)%Z in
  match (2 * r ?= b)%Z with
  | Lt => q
  | Gt => (q + 1)%Z
  | Eq => if Z.even q then q else (q + 1)%Z
  end.

(** [|x| * 10^4] rounded to an integer, half to even, for the finite
    [|x| = m * 2^e]: the digits [_Py_dg_dtoa] produces in mode 3 with
    four places. *)
Definition scaled4 (m : positive) (e : Z) : Z :=
  if (0 <=? e)%Z then (Z.pos m * 2 ^ e * 10000)%Z
  else div_half_even (Z.pos m * 10000) (2 ^ (- e)).

(** [round(x, 4)]: NaN and the infinities round to themselves; a finite
    [x] is rounded, on its exact value, to four decimal places half to
    even, and the decimal is converted back to the nearest float, the
    sign of [x] kept. *)
Definition round4 (x : float) : float :=
  match Prim2SF x with
  | S754_finite s m e =>
      match scaled4 m e with
      | Zpos k =>
          SF2Prim (SFdiv prec emax (S754_finite s k 0) (S754_finite false 10000 0))
      | _ => SF2Prim (S754_zero s)
      end
  | _ => x
  end.

(** The float [float_pow] computes for [d ** 2], before it looks at the
    overflow. *)
Definition pow2_value (L : Libm) (d : float) : float :=
  if is_nan d then d
  else if is_infinity d then abs d
  else if d =? 0 then 0
  else if abs d =? 1 then 1
  else libm_pow2 L (abs d).

(** The square of a deviation overflows: the deviation is finite and the
    float computed for its square is infinite. *)
Definition square_overflows (L : Libm) (d : float) : bool :=
  is_finite d && is_infinity (pow2_value L d).

(** The square of [d] does not go through the C library, or is a float:
    every C library gives the same [d ** 2]. *)
Definition square_settled (d : float) : bool :=
  is_nan d || is_infinity d || (d =? 0) || (abs d =? 1) || square_exact (abs d).

(** The floats that are a zero or a NaN. *)
Definition zero_or_nan (x : float) : bool :=
  match Prim2SF x with
  | S754_zero _ | S754_nan => true
  | _ => false
  end.

End PyFloat.

(** ** Data model *)

(** A naive [datetime], as microseconds since the epoch. *)
Definition datetime : Type := Z.

(** A point of a timeseries: [tuple[datetime, float]]. *)
Definition point : Type := (datetime * float)%type.

(** [models.py] *)
Module models.

Record MetricAnomaly : Type := {
  metric_name : string;
  value : float;
  threshold : float;
  timestamp : datetime;
  window_seconds : Z
}.

End models.

(** The attributes of a [WindowTrigger] instance. *)
Record WindowTrigger : Type := {
  window_seconds : Z;
  threshold_multiplier : float
}.

(** [WindowTrigger.__init__]: both arguments are stored as they are. *)
Definition init (window_seconds : Z) (threshold_multiplier : float)
  : outcome WindowTrigger :=
  Returned {| window_seconds := window_seconds;
              threshold_multiplier := threshold_multiplier |}.

(** ** The objects a call of [check] can reach

    [check] receives two mutable objects: the trigger [self] and the list
    [series].  A call is a computation over this store that may raise. *)

Record store : Type := {
  self_obj : WindowTrigger;
  series_obj : list point
}.

Definition M (A : Type) : Type := store -> outcome A * store.

Definition ret {A} (a : A) : M A := fun st => (Returned a, st).

Definition bind {A B} (m : M A) (k : A -> M B) : M B :=
  fun st =>
    match m st with
    | (Returned a, st') => k a st'
    | (Raised e, st') => (Raised e, st')
    end.

Definition lift {A} (o : outcome A) : M A := fun st => (o, st).

Definition load_series : M (list point) := fun st =>
  (Returned (series_obj st), st).

Definition load_self : M WindowTrigger := fun st =>
  (Returned (self_obj st), st).

Declare Scope py_scope.
Delimit Scope py_scope with py.
Notation "x <- m ;; k" := (bind m (fun x => k))
  (at level 61, m at next level, right associativity) : py_scope.
Local Open Scope py_scope.

(** ** [WindowTrigger.check] *)

(** The generator [(v - mean) ** 2 for v in values], consumed by [sum]: the
    first overflowing square raises. *)
Fixpoint squared_deviations (L : PyFloat.Libm) (mean : float)
  (values : list float) : outcome (list float) :=
  match values with
  | [] => Returned []
  | v :: values' =>
      match PyFloat.pow2 L (v - mean) with
      | Raised e => Raised e
      | Returned sq =>
          match squared_deviations L mean values' with
          | Raised e => Raised e
          | Returned sqs => Returned (sq :: sqs)
          end
      end
  end.

Section Check.

(** The C library of the interpreter. *)
Variable L : PyFloat.Libm.

(** Whether the interpreter's [sum] compensates (CPython 3.12 and later). *)
Variable compensated : bool.

(** The loop [for ts, val in series], appending to [anomalies]. *)
Fixpoint scan (metric_name : string) (threshold : float)
  (pts : list point) (anomalies : list models.MetricAnomaly)
  : M (list models.MetricAnomaly) :=
  match pts with
  | [] => ret anomalies
  | (ts, val) :: pts' =>
      if threshold <? val then
        self <- load_self ;;
        scan metric_name threshold pts'
          (anomalies ++
           [{| models.metric_name := metric_name;
               models.value := PyFloat.round4 val;
               models.threshold := PyFloat.round4 threshold;
               models.timestamp := ts;
               models.window_seconds := window_seconds self |}])
      else scan metric_name threshold pts' anomalies
  end.

Definition check (metric_name : string) : M (list models.MetricAnomaly) :=
  series <- load_series ;;
  if (List.length series <? 2)%nat then ret []
  else
    let values := map snd series in
    let n := List.length values in
    let mean := PyFloat.sum compensated values / PyFloat.of_len n in
    sqs <- lift (squared_deviations L mean values) ;;
    let variance := PyFloat.sum compensated sqs / PyFloat.of_len n in
    std <- lift (PyFloat.math_sqrt variance) ;;
    self <- load_self ;;
    let threshold := mean + threshold_multiplier self * std in
    scan metric_name threshold series [].

(** A call [trigger.check(metric_name, series)], seen from the caller. *)
Definition call_check (trigger : WindowTrigger) (metric_name : string)
  (series : list point) : outcome (list models.MetricAnomaly) :=
  fst (check metric_name {| self_obj := trigger; series_obj := series |}).

End Check.

(** ** What a call computes *)

(** The record built for a flagged point. *)
Definition record_of (metric_name : string) (threshold : float) (ws : Z)
  (p : point) : models.MetricAnomaly :=
  {| models.metric_name := metric_name;
     models.value := PyFloat.round4 (snd p);
     models.threshold := PyFloat.round4 threshold;
     models.timestamp := fst p;
     models.window_seconds := ws |}.

(** The test [val > threshold] of the loop. *)
Definition above (threshold : float) (p : point) : bool := threshold <? snd p.

(** Lines 46 to 51 of [triggers.py]: the threshold of a series. *)
Definition threshold_of (L : PyFloat.Libm) (compensated : bool)
  (trigger : WindowTrigger) (values : list float) : outcome float :=
  let n := List.length values in
  let mean := PyFloat.sum compensated values / PyFloat.of_len n in
  match squared_deviations L mean values with
  | Raised e => Raised e
  | Returned sqs =>
      match PyFloat.math_sqrt (PyFloat.sum compensated sqs / PyFloat.of_len n) with
      | Raised e => Raised e
      | Returned std => Returned (mean + threshold_multiplier trigger * std)
      end
  end.

(** ** The detector in the words of its specification *)

Module Spec.

Section Detector.

Variable L : PyFloat.Libm.

Variable compensated : bool.

(** The arithmetic mean of all values: their sum over their number. *)
Definition mean (values : list float) : float :=
  PyFloat.sum compensated values / PyFloat.of_len (List.length values).

(** The population variance: the mean of the squared deviations from
    [mean], with divisor [n]; a deviation is squared as the interpreter
    squares a float. *)
Definition variance (values : list float) : float :=
  PyFloat.sum compensated
    (map (fun v => PyFloat.pow2_value L (v - mean values)) values)
  / PyFloat.of_len (List.length values).

Definition std (values : list float) : float := sqrt (variance values).

Definition threshold (multiplier : float) (values : list float) : float :=
  mean values + multiplier * std values.

(** No squared deviation of the series exceeds the largest float. *)
Definition squares_representable (values : list float) : bool :=
  negb (existsb (fun v => PyFloat.square_overflows L (v - mean values)) values).

End Detector.

End Spec.

(** ** Inputs used below *)

(** The configuration [detect_anomalies] builds. *)
Definition default_trigger : WindowTrigger :=
  {| window_seconds := 300; threshold_multiplier := 2.5 |}.

(** [n] points of value [v], one a minute, from instant [t0] (in seconds). *)
Definition flat (t0 : Z) (n : nat) (v : float) : list point :=
  map (fun i => ((t0 + 60 * Z.of_nat i) * 1000000, v)%Z) (seq 0 n).

(** Scenario 1 of the specification. *)
Definition scenario1 (t0 t1 t2 t3 t4 : datetime) : list point :=
  [(t0, 10); (t1, 10); (t2, 10); (t3, 10); (t4, 100)].

(** Eighteen points at [0] followed by two at [100]: both clear the
    threshold [85]. *)
Definition two_spikes : list point := flat 0 18 0 ++ flat 1080 2 100.

(** Nine points at [0] followed by one at [0.0001]: the threshold is
    [0.000085]. *)
Definition small_spike : list point := flat 0 9 0 ++ flat 540 1 0.0001.

(** Two points, the second so large that its squared deviation is beyond
    the largest float. *)
Definition huge_spike : list point := [(0%Z, 0); (60000000%Z, 1e200)].

(** Three points of the same value [0.7]: their float sum is
    [2.0999999999999996] and the mean [0.6999999999999998]. *)
Definition flat_07 : list point := flat 0 3 0.7.

(** A valid configuration with a small multiplier. *)
Definition sensitive_trigger : WindowTrigger :=
  {| window_seconds := 300; threshold_multiplier := 0.25 |}.

(** The two spikes, latest first: a series that is not in timestamp order. *)
Definition unsorted_spikes : list point := rev two_spikes.

(** The record [check] builds for a spike of [two_spikes]. *)
Definition spike_record (ts : datetime) : models.MetricAnomaly :=
  {| models.metric_name := "cpu_usage";
     models.value := 100;
     models.threshold := 85;
     models.timestamp := ts;
     models.window_seconds := 300 |}.

Arguments spike_record ts%_Z.

(** The record [check] builds for the spike of [small_spike]. *)
Definition small_spike_record : models.MetricAnomaly :=
  {| models.metric_name := "cpu_usage";
     models.value := 0.0001;
     models.threshold := 0.0001;
     models.timestamp := 540000000%Z;
     models.window_seconds := 300 |}.

(** ** The rest of [triggers.py]: the mock series and [detect_anomalies] *)

Module PyTime.

(** The range of a naive [datetime], in microseconds since the epoch:
    [datetime.min] is 0001-01-01T00:00:00 and [datetime.max] is
    9999-12-31T23:59:59.999999. *)
Definition datetime_min : Z := (-62135596800000000)%Z.
Definition datetime_max : Z := 253402300799999999%Z.

Definition in_range (d : datetime) : bool :=
  ((datetime_min <=? d) && (d <=? datetime_max))%Z.

(** [d - timedelta(seconds=k)] for an integer [k]: the [timedelta] needs a
    number of days of magnitude at most 999999999, and the difference has
    to be a [datetime]; both failures are an [OverflowError]. *)
Definition minus_seconds (d : datetime) (k : Z) : outcome datetime :=
  if ((-999999999 <=? k / 86400) && (k / 86400 <=? 999999999))%Z then
    let r := (d - k * 1000000)%Z in
    if in_range r then Returned r else Raised OverflowError
  else Raised OverflowError.

End PyTime.

Module PyNum.

(** An integer as an exact [spec_float]. *)
Definition exact (z : Z) : spec_float :=
  match z with
  | Z0 => S754_zero false
  | Zpos p => S754_finite false p 0
  | Zneg p => S754_finite true p 0
  end.

(** [i / n] on two integers, [n] not zero: the correctly rounded
    quotient. *)
Definition true_div (i n : Z) : float :=
  SF2Prim (SFdiv prec emax (exact i) (exact n)).

(** [int(x)] on a float: truncation towards zero; an infinity raises
    [OverflowError] and a NaN raises [ValueError]. *)
Definition int (x : float) : outcome Z :=
  match Prim2SF x with
  | S754_zero _ => Returned 0%Z
  | S754_infinity _ => Raised OverflowError
  | S754_nan => Raised ValueError
  | S754_finite s m e =>
      let a := if (0 <=? e)%Z then (Z.pos m * 2 ^ e)%Z
               else (Z.pos m / 2 ^ (- e))%Z in
      Returned (if s then (- a)%Z else a)
  end.

End PyNum.

(** The dictionary of base levels, read with [.get(metric_name, 50.0)]. *)
Definition base_level (metric_name : string) : float :=
  if String.eqb metric_name "cpu_usage" then 40
  else if String.eqb metric_name "error_rate" then 0.5
  else if String.eqb metric_name "latency_p99" then 120
  else if String.eqb metric_name "checkout_latency_p99" then 210
  else if String.eqb metric_name "heap_usage_mb" then 512
  else 50.

(** The spike added to point [i] of [n]. *)
Definition spike_of (metric_name : string) (n i : nat) (base : float)
  : outcome float :=
  if String.eqb metric_name "checkout_latency_p99" then
    match PyNum.int (PyFloat.of_len n * 0.9) with
    | Raised e => Raised e
    | Returned k => Returned (if (k <=? Z.of_nat i)%Z then 1800 else 0)
    end
  else if String.eqb metric_name "heap_usage_mb" then
    Returned (PyNum.true_div (Z.of_nat i) (Z.of_nat n) * 1300)
  else
    match PyNum.int (PyFloat.of_len n * 0.9) with
    | Raised e => Raised e
    | Returned k => Returned (if (k <=? Z.of_nat i)%Z then base * 3 else 0)
    end.

Section Generate.

(** What [datetime.utcnow()] returns in this call. *)
Variable now : datetime.

(** What the call of [random.gauss] returns at iteration [i]. *)
Variable noise : nat -> float.

(** The loop [for i in range(n)], appending to [series]. *)
Fixpoint generate_loop (metric_name : string) (n : nat) (base : float)
  (indices : list nat) (series : list point) : outcome (list point) :=
  match indices with
  | [] => Returned series
  | i :: indices' =>
      match PyTime.minus_seconds now ((Z.of_nat n - Z.of_nat i) * 60) with
      | Raised e => Raised e
      | Returned ts =>
          match spike_of metric_name n i base with
          | Raised e => Raised e
          | Returned spike =>
              generate_loop metric_name n base indices'
                (series ++ [(ts, base + noise i + spike)])
          end
      end
  end.

(** [generate_mock_timeseries(metric_name, n)]; a negative [n] gives an
    empty range. *)
Definition generate_mock_timeseries (metric_name : string) (n : Z)
  : outcome (list point) :=
  generate_loop metric_name (Z.to_nat n) (base_level metric_name)
    (seq 0 (Z.to_nat n)) [].

End Generate.

(** The metrics [detect_anomalies] goes through. *)
Definition metrics : list string :=
  ["cpu_usage"; "error_rate"; "latency_p99"; "checkout_latency_p99";
   "heap_usage_mb"]%string.

Section Detect.

Variable L : PyFloat.Libm.

Variable compensated : bool.

(** What [datetime.utcnow()] returns in the [k]-th generated series. *)
Variable clock : nat -> datetime.

(** What [random.gauss] returns at iteration [i] of the [k]-th series. *)
Variable noise : nat -> nat -> float.

(** The loop [for metric in metrics], extending [all_anomalies]; [k]
    counts the series already generated. *)
Fixpoint detect_loop (trigger : WindowTrigger) (k : nat) (ms : list string)
  (all_anomalies : list models.MetricAnomaly)
  : outcome (list models.MetricAnomaly) :=
  match ms with
  | [] => Returned all_anomalies
  | metric :: ms' =>
      match generate_mock_timeseries (clock k) (noise k) metric 100 with
      | Raised e => Raised e
      | Returned series =>
          match call_check L compensated trigger metric series with
          | Raised e => Raised e
          | Returned found =>
              detect_loop trigger (S k) ms' (all_anomalies ++ found)
          end
      end
  end.

Definition detect_anomalies : outcome (list models.MetricAnomaly) :=
  match init 300 2.5 with
  | Raised e => Raised e
  | Returned trigger => detect_loop trigger 0 metrics []
  end.

End Detect.

(** ** [main.py]: the incident window and the upload destination

    Python strings are taken as their UTF-8 bytes; the byte of ['/'] occurs
    in no other character, so splitting at ['/'] is the same on both. *)

Module PyStr.

(** The character ['/'], code 47. *)
Definition slash : Ascii.ascii := Ascii.ascii_of_nat 47.

(** [s.rstrip('/')] *)
Fixpoint rstrip_slash (s : string) : string :=
  match s with
  | EmptyString => EmptyString
  | String c s' =>
      match rstrip_slash s' with
      | EmptyString => if Ascii.eqb c slash then EmptyString else String c EmptyString
      | r => String c r
      end
  end.

Fixpoint has_slash (s : string) : bool :=
  match s with
  | EmptyString => false
  | String c s' => Ascii.eqb c slash || has_slash s'
  end.

(** [os.path.basename(p)] on POSIX: what follows the last ['/'], or all of
    [p] when it has none. *)
Fixpoint basename (p : string) : string :=
  match p with
  | EmptyString => EmptyString
  | String c p' =>
      if has_slash p' then basename p'
      else if Ascii.eqb c slash then p' else p
  end.

End PyStr.

(** The destination [upload_to_gcs] builds:
    [f"{ARTIFACTS_GCS_DIR.rstrip('/')}/{os.path.basename(local_path)}"]. *)
Definition gcs_destination (gcs_dir local_path : string) : string :=
  (PyStr.rstrip_slash gcs_dir ++ "/" ++ PyStr.basename local_path)%string.

(** The command [upload_to_gcs] runs, if any: none when
    [ARTIFACTS_GCS_DIR] is empty.  The console output is not modelled. *)
Definition upload_to_gcs (gcs_dir local_path : string)
  : option (list string) :=
  match gcs_dir with
  | EmptyString => None
  | _ =>
      Some ["gsutil"; "cp"; local_path;
            gcs_destination gcs_dir local_path]%string
  end.

(** The path [main] uploads: [f"rca_reports/incident_{rca.incident_id}.md"]. *)
Definition local_rca_path (incident_id : string) : string :=
  ("rca_reports/incident_" ++ incident_id ++ ".md")%string.

(** [max] over the timestamps, which raises [ValueError] on an empty
    sequence. *)
Definition py_max (l : list datetime) : outcome datetime :=
  match l with
  | [] => Raised ValueError
  | d :: l' => Returned (fold_left (fun m x => if (m <? x)%Z then x else m) l' d)
  end.

(** Lines 37 to 47 of [main]: nothing when there is no anomaly; else the
    instant [triggered_at] and the start of the window, thirty minutes
    before (both before [isoformat] is applied). *)
Definition incident_window (anomalies : list models.MetricAnomaly)
  : outcome (option (datetime * datetime)) :=
  match anomalies with
  | [] => Returned None
  | _ =>
      match py_max (map models.timestamp anomalies) with
      | Raised e => Raised e
      | Returned triggered_at =>
          match PyTime.minus_seconds triggered_at 1800 with
          | Raised e => Raised e
          | Returned window_start => Returned (Some (triggered_at, window_start))
          end
      end
  end.

(** ** Inputs and record updates used for the further properties *)

(** A series with a NaN among its values. *)
Definition nan_series : list point :=
  [(0%Z, 1); (60000000%Z, nan); (120000000%Z, 1000)].

(** A record with its timestamp changed by [f]. *)
Definition with_timestamp (f : datetime -> datetime) (r : models.MetricAnomaly)
  : models.MetricAnomaly :=
  {| models.metric_name := models.metric_name r;
     models.value := models.value r;
     models.threshold := models.threshold r;
     models.timestamp := f (models.timestamp r);
     models.window_seconds := models.window_seconds r |}.

(** A record with another metric name and window. *)
Definition retagged (name : string) (ws : Z) (r : models.MetricAnomaly)
  : models.MetricAnomaly :=
  {| models.metric_name := name;
     models.value := models.value r;
     models.threshold := models.threshold r;
     models.timestamp := models.timestamp r;
     models.window_seconds := ws |}.

(** The image of an outcome. *)
Definition outcome_map {A B : Type} (f : A -> B) (o : outcome A) : outcome B :=
  match o with
  | Returned a => Returned (f a)
  | Raised e => Raised e
  end.

(** The classes of floats by sign: [sign_clear] for a zero, a finite float
    or an infinity of positive sign, [not_negative] for every float but
    the negative finite ones and the negative infinity. *)
Definition sign_clear (X : spec_float) : Prop :=
  match X with
  | S754_zero s | S754_infinity s | S754_finite s _ _ => s = false
  | S754_nan => False
  end.

Definition not_negative (X : spec_float) : Prop :=
  match X with
  | S754_infinity true | S754_finite true _ _ => False
  | _ => True
  end.

(** The instant of point [i] of [n]: [(n - i)] minutes before [now]. *)
Definition stamp (now : datetime) (n i : nat) : datetime :=
  (now - (Z.of_nat n - Z.of_nat i) * 60 * 1000000)%Z.

(** The spike of point [i] of a series of the default size, 100: nothing
    on the first ninety points and the full spike on the last ten, or the
    ramp of the heap. *)
Definition spike100 (metric_name : string) (i : nat) : float :=
  if String.eqb metric_name "checkout_latency_p99" then
    if (90 <=? i)%nat then 1800 else 0
  else if String.eqb metric_name "heap_usage_mb" then
    PyNum.true_div (Z.of_nat i) 100 * 1300
  else
    if (90 <=? i)%nat then base_level metric_name * 3 else 0.

(** One group of records for each metric, in the order of the metrics;
    [k] is the rank of the first metric. *)
Fixpoint grouped (P : nat -> string -> list models.MetricAnomaly -> Prop)
  (k : nat) (ms : list string) (groups : list (list models.MetricAnomaly))
  : Prop :=
  match ms, groups with
  | [], [] => True
  | m :: ms', g :: groups' => P k m g /\ grouped P (S k) ms' groups'
  | _, _ => False
  end.

(** An instant of November 2025, and the noise that is always zero. *)
Definition sample_now : datetime := 1762190000000000%Z.

Definition quiet : nat -> float := fun _ => 0.

(** The three points generated for [cpu_usage] at [sample_now] without
    noise: the spike starts at index [int(3 * 0.9) = 2]. *)
Definition sample_series3 : list point :=
  [(1762189820000000%Z, 40); (1762189880000000%Z, 40); (1762189940000000%Z, 160)].

Arguments PyTime.in_range d%_Z.
Arguments PyTime.minus_seconds d%_Z k%_Z.
Arguments stamp now%_Z n%_nat i%_nat.

(** The records found for metric [m], the [k]-th one: the result of
    [check] on the series generated for it. *)
Definition found_for (L : PyFloat.Libm) (c : bool) (clock : nat -> datetime)
  (noise : nat -> nat -> float) (tr : WindowTrigger) (k : nat) (m : string)
  (g : list models.MetricAnomaly) : Prop :=
  exists series,
    generate_mock_timeseries (clock k) (noise k) m 100 = Returned series
    /\ call_check L c tr m series = Returned g.

(** The instants and the noise of a run of [detect_anomalies] at
    [sample_now] without noise. *)
Definition quiet_clock : nat -> datetime := fun _ => sample_now.

Definition quiet_noise : nat -> nat -> float := fun _ _ => 0.

(** Two records a minute apart, the later one first. *)
Definition late_record : models.MetricAnomaly :=
  {| models.metric_name := "cpu_usage";
     models.value := 160;
     models.threshold := 142;
     models.timestamp := 1762189940000000%Z;
     models.window_seconds := 300 |}.

Definition early_record : models.MetricAnomaly :=
  {| models.metric_name := "cpu_usage";
     models.value := 160;
     models.threshold := 142;
     models.timestamp := 1762189880000000%Z;
     models.window_seconds := 300 |}.

(** ** Facts on binary64 arithmetic

    The primitive operations are related to their specification on
    [spec_float] by the standard library; the facts below follow by cases
    on the class of the operands. *)

Module FloatFacts.

Import PyFloat.

Lemma eq_of_Prim2SF (x y : float) : Prim2SF x = Prim2SF y -> x = y.
Proof.
  intros H. rewrite <- (SF2Prim_Prim2SF x), <- (SF2Prim_Prim2SF y). now rewrite H.
Qed.

Lemma SFcompare_refl_finite (s : bool) (m : positive) (e : Z) :
  SFcompare (S754_finite s m e) (S754_finite s m e) = Some Eq.
Proof.
  simpl. rewrite Z.compare_refl.
  assert (H : Pos.compare_cont Eq m m = Eq) by apply Pos.compare_refl.
  rewrite H. now destruct s.
Qed.

Lemma SFcompare_refl (X : spec_float) :
  SFcompare X X = match X with S754_nan => None | _ => Some Eq end.
Proof.
  destruct X as [[]|[]| |s m e]; try reflexivity.
  apply SFcompare_refl_finite.
Qed.

Lemma is_nan_class (x : float) :
  is_nan x = match Prim2SF x with S754_nan => true | _ => false end.
Proof.
  unfold is_nan. rewrite eqb_spec. unfold SFeqb. rewrite SFcompare_refl.
  now destruct (Prim2SF x).
Qed.

Lemma is_infinity_class (x : float) :
  is_infinity x = match Prim2SF x with S754_infinity _ => true | _ => false end.
Proof.
  unfold is_infinity. rewrite eqb_spec, abs_spec.
  change (Prim2SF infinity) with (S754_infinity false).
  now destruct (Prim2SF x) as [[]|[]| |[] m e].
Qed.

Lemma is_zero_class (x : float) :
  (x =? 0) = match Prim2SF x with S754_zero _ => true | _ => false end.
Proof.
  rewrite eqb_spec. change (Prim2SF 0) with (S754_zero false).
  now destruct (Prim2SF x) as [[]|[]| |[] m e].
Qed.

Lemma ltb_irrefl (x : float) : (x <? x) = false.
Proof.
  rewrite ltb_spec. unfold SFltb. rewrite SFcompare_refl.
  now destruct (Prim2SF x).
Qed.

Lemma abs_one_class (x : float) :
  (abs x =? 1) = true ->
  exists s, Prim2SF x = S754_finite s 4503599627370496 (-52).
Proof.
  rewrite eqb_spec, abs_spec.
  change (Prim2SF 1) with (S754_finite false 4503599627370496 (-52)).
  destruct (Prim2SF x) as [s|s| |s m e]; try discriminate.
  unfold SFeqb, SFabs, SFcompare.
  destruct (Z.compare_spec e (-52)) as [->| |]; try discriminate.
  destruct (Pos.compare_cont Eq m 4503599627370496) eqn:Hm; try discriminate.
  apply Pos.compare_eq in Hm. subst m. intros _. now exists s.
Qed.

Lemma pow2_spec (L : Libm) (x : float) :
  pow2 L x =
  if square_overflows L x then Raised OverflowError
  else Returned (pow2_value L x).
Proof.
  unfold pow2, square_overflows, pow2_value, is_finite.
  destruct (is_nan x); [reflexivity|].
  destruct (is_infinity x); [reflexivity|]. simpl.
  destruct (x =? 0); [reflexivity|].
  destruct (abs x =? 1); [reflexivity|].
  now destruct (is_infinity (libm_pow2 L (abs x))).
Qed.

(** Rounding a non-negative mantissa never yields a NaN. *)
Lemma shr_1_nonneg (mrs : shr_record) :
  (0 <= shr_m mrs)%Z -> (0 <= shr_m (shr_1 mrs))%Z.
Proof.
  destruct mrs as [m r s]. simpl. destruct m as [|[p|p|]|p]; simpl; lia.
Qed.

Lemma iter_pos_invariant {A} (P : A -> Prop) (f : A -> A) :
  (forall a, P a -> P (f a)) ->
  forall (p : positive) (a : A), P a -> P (iter_pos f p a).
Proof.
  intros Hf. induction p as [p IH|p IH|]; intros a Ha; simpl; auto.
Qed.

Lemma shr_fexp_nonneg (m e : Z) (l : location) :
  (0 <= m)%Z -> (0 <= shr_m (fst (shr_fexp prec emax m e l)))%Z.
Proof.
  intros Hm. unfold shr_fexp, shr.
  assert (H0 : (0 <= shr_m (shr_record_of_loc m l))%Z).
  { now destruct l as [|[]]. }
  destruct (fexp prec emax (Zdigits2 m + e) - e)%Z; simpl; auto.
  apply (iter_pos_invariant (fun mrs => (0 <= shr_m mrs)%Z)); auto.
  apply shr_1_nonneg.
Qed.

Lemma round_nearest_even_nonneg (m : Z) (l : location) :
  (0 <= m)%Z -> (0 <= round_nearest_even m l)%Z.
Proof.
  intros Hm. destruct l as [|[]]; simpl; try lia. destruct (Z.even m); lia.
Qed.

Lemma binary_round_aux_not_nan (sx : bool) (mx ex : Z) (lx : location) :
  (0 <= mx)%Z -> binary_round_aux prec emax sx mx ex lx <> S754_nan.
Proof.
  intros Hm. unfold binary_round_aux.
  pose proof (shr_fexp_nonneg mx ex lx Hm) as H1.
  destruct (shr_fexp prec emax mx ex lx) as [mrs' e']. simpl in H1.
  pose proof (shr_fexp_nonneg _ e' loc_Exact
                (round_nearest_even_nonneg _ (loc_of_shr_record mrs') H1)) as H2.
  destruct (shr_fexp prec emax _ e' loc_Exact) as [mrs'' e'']. simpl in H2.
  destruct (shr_m mrs'') as [|m|m]; try discriminate; [|lia].
  destruct (e'' <=? emax - prec)%Z; discriminate.
Qed.

Lemma SFsqrt_not_nan (m : positive) (e : Z) :
  SFsqrt prec emax (S754_finite false m e) <> S754_nan.
Proof.
  unfold SFsqrt, SFsqrt_core_binary.
  set (m' := match (e - 2 * _)%Z with Z0 => _ | Zpos _ => _ | Zneg _ => _ end).
  pose proof (Z.sqrtrem_sqrt m') as Hq.
  destruct (Z.sqrtrem m') as [q r]. simpl in Hq.
  apply binary_round_aux_not_nan. subst q. apply Z.sqrt_nonneg.
Qed.

(** [math.sqrt] returns on every argument that is not negative. *)
Lemma math_sqrt_spec (x : float) :
  (x <? 0) = false -> math_sqrt x = Returned (sqrt x).
Proof.
  intros Hx. unfold math_sqrt. rewrite !is_nan_class, sqrt_spec.
  rewrite ltb_spec in Hx. change (Prim2SF 0) with (S754_zero false) in Hx.
  destruct (Prim2SF x) as [[]|[]| |[] m e]; try reflexivity; try discriminate.
  pose proof (SFsqrt_not_nan m e) as Hn. unfold SF64sqrt.
  now destruct (SFsqrt prec emax (S754_finite false m e)).
Qed.

(** *** Zeros and NaN

    On a constant series whose mean is the common value, every
    intermediate quantity of [check] is a zero or a NaN. *)

Ltac by_class x := destruct (Prim2SF x) as [[]|[]| |[] ? ?]; try reflexivity; try discriminate.

Lemma sub_diag_zero_or_nan (v : float) : zero_or_nan (v - v) = true.
Proof.
  unfold zero_or_nan. rewrite sub_spec. unfold SF64sub.
  destruct (Prim2SF v) as [[]|[]| |s m e]; try reflexivity.
  unfold SFsub. now rewrite Z.sub_diag.
Qed.

Lemma add_zero_or_nan (x y : float) :
  zero_or_nan x = true -> zero_or_nan y = true -> zero_or_nan (x + y) = true.
Proof.
  unfold zero_or_nan. rewrite add_spec. by_class x; by_class y.
Qed.

Lemma sub_zero_or_nan (x y : float) :
  zero_or_nan x = true -> zero_or_nan y = true -> zero_or_nan (x - y) = true.
Proof.
  unfold zero_or_nan. rewrite sub_spec. by_class x; by_class y.
Qed.

Lemma mul_zero_or_nan (t x : float) :
  zero_or_nan x = true -> zero_or_nan (t * x) = true.
Proof.
  unfold zero_or_nan. rewrite mul_spec. by_class x; by_class t.
Qed.

Lemma div_zero_or_nan (x y : float) :
  zero_or_nan x = true -> zero_or_nan (x / y) = true.
Proof.
  unfold zero_or_nan. rewrite div_spec. by_class x; by_class y.
Qed.

Lemma math_sqrt_zero_or_nan (x : float) :
  zero_or_nan x = true ->
  math_sqrt x = Returned (sqrt x) /\ zero_or_nan (sqrt x) = true.
Proof.
  unfold zero_or_nan, math_sqrt. rewrite !is_nan_class, sqrt_spec.
  by_class x; intros _; now split.
Qed.

Lemma pow2_zero_or_nan (L : Libm) (d : float) :
  zero_or_nan d = true ->
  pow2 L d = Returned (pow2_value L d) /\ zero_or_nan (pow2_value L d) = true.
Proof.
  intros Hd. rewrite pow2_spec. unfold square_overflows, pow2_value, is_finite.
  rewrite is_nan_class, is_infinity_class, is_zero_class.
  unfold zero_or_nan in Hd.
  destruct (Prim2SF d) as [s|s| |s m e] eqn:Hc; try discriminate.
  - now split.
  - simpl. split; [reflexivity|]. unfold zero_or_nan. now rewrite Hc.
Qed.

(** A threshold [v + z] with [z] a zero or a NaN is not below [v]. *)
Lemma not_above_self (v z : float) :
  zero_or_nan z = true -> (v + z <? v) = false.
Proof.
  unfold zero_or_nan. rewrite ltb_spec, add_spec. unfold SFltb.
  by_class z; intros _; destruct (Prim2SF v) as [[]|[]| |s m e]; try reflexivity;
    simpl SF64add; unfold SFadd; now rewrite SFcompare_refl_finite.
Qed.

Lemma sum_naive_zero_or_nan (l : list float) :
  forall acc, zero_or_nan acc = true ->
  Forall (fun x => zero_or_nan x = true) l ->
  zero_or_nan (fold_left add l acc) = true.
Proof.
  induction l as [|x l IH]; intros acc Hacc Hl; simpl; [assumption|].
  inversion Hl; subst. apply IH; [now apply add_zero_or_nan|assumption].
Qed.

Lemma neumaier_zero_or_nan (l : list float) :
  forall f c, zero_or_nan f = true -> zero_or_nan c = true ->
  Forall (fun x => zero_or_nan x = true) l ->
  zero_or_nan (neumaier f c l) = true.
Proof.
  induction l as [|x l IH]; intros f c Hf Hc Hl; simpl.
  - destruct (negb (c =? 0) && is_finite c); [now apply
      add_zero_or_nan|assumption].
  - inversion Hl; subst.
    assert (Ht : zero_or_nan (f + x) = true) by now apply add_zero_or_nan.
    apply IH; [assumption| |assumption].
    destruct (abs x <=? abs f); apply add_zero_or_nan; try assumption;
      apply add_zero_or_nan; try assumption; now apply sub_zero_or_nan.
Qed.

Lemma sum_zero_or_nan (c : bool) (l : list float) :
  Forall (fun x => zero_or_nan x = true) l ->
  zero_or_nan (sum c l) = true.
Proof.
  intros Hl. destruct c; simpl.
  - destruct l as [|x l]; [reflexivity|]. inversion Hl; subst. simpl.
    apply neumaier_zero_or_nan; try assumption; [|reflexivity].
    now apply add_zero_or_nan.
  - now apply sum_naive_zero_or_nan.
Qed.

End FloatFacts.

(** ** Signs of rounded results *)

Lemma binary_round_aux_sign (sx : bool) (mx ex : Z) (lx : location) :
  (0 <= mx)%Z ->
  match binary_round_aux prec emax sx mx ex lx with
  | S754_zero s | S754_infinity s | S754_finite s _ _ => s = sx
  | S754_nan => False
  end.
Proof.
  intros Hm. unfold binary_round_aux.
  pose proof (FloatFacts.shr_fexp_nonneg mx ex lx Hm) as H1.
  destruct (shr_fexp prec emax mx ex lx) as [mrs' e']. simpl in H1.
  pose proof (FloatFacts.shr_fexp_nonneg _ e' loc_Exact
                (FloatFacts.round_nearest_even_nonneg _ (loc_of_shr_record mrs') H1))
    as H2.
  destruct (shr_fexp prec emax _ e' loc_Exact) as [mrs'' e'']. simpl in H2.
  destruct (shr_m mrs'') as [|m|m]; [reflexivity| |lia].
  now destruct (e'' <=? emax - prec)%Z.
Qed.

Lemma binary_round_sign (sx : bool) (m : positive) (e : Z) :
  match binary_round prec emax sx m e with
  | S754_zero s | S754_infinity s | S754_finite s _ _ => s = sx
  | S754_nan => False
  end.
Proof.
  unfold binary_round. destruct (shl_align m e _) as [mz ez].
  apply binary_round_aux_sign. lia.
Qed.

Lemma binary_normalize_sign_clear (z e : Z) :
  (0 <= z)%Z -> sign_clear (binary_normalize prec emax z e false).
Proof.
  intros Hz. destruct z as [|m|m]; simpl; [reflexivity| |lia].
  pose proof (binary_round_sign false m e) as H.
  now destruct (binary_round prec emax false m e).
Qed.

Lemma SFldexp_sign_clear (X : spec_float) (e : Z) :
  sign_clear X -> sign_clear (SFldexp prec emax X e).
Proof.
  destruct X as [s|s| |s m e']; simpl; auto. intros ->.
  pose proof (binary_round_sign false m (e' + e)) as H.
  now destruct (binary_round prec emax false m (e' + e)).
Qed.

(** The length of a list, as a float, is not negative and not a NaN. *)
Lemma of_len_sign_clear (n : nat) : sign_clear (Prim2SF (PyFloat.of_len n)).
Proof.
  unfold PyFloat.of_len.
  pose proof (binary_normalize_sign_clear (Z.of_nat n) 0 (Nat2Z.is_nonneg n)) as H.
  destruct (binary_normalize prec emax (Z.of_nat n) 0 false) as [s|s| |s m e];
    simpl in H; try contradiction; subst; try reflexivity.
  unfold SF2Prim. rewrite Z_ldexp_spec, of_uint63_spec.
  apply SFldexp_sign_clear, binary_normalize_sign_clear.
  apply Uint63.to_Z_bounded.
Qed.

Lemma ltb_zero_class (x : float) :
  (x <? 0) = false <-> not_negative (Prim2SF x).
Proof.
  rewrite ltb_spec. change (Prim2SF 0) with (S754_zero false).
  destruct (Prim2SF x) as [[]|[]| |[] m e]; simpl; intuition discriminate.
Qed.

Lemma mul_self_not_negative (x : float) : not_negative (Prim2SF (x * x)).
Proof.
  rewrite mul_spec. destruct (Prim2SF x) as [[]|[]| |s m e]; simpl; auto.
  pose proof (binary_round_aux_sign (xorb s s) (Z.pos (m * m)) (e + e) loc_Exact) as H.
  unfold SF64mul, SFmul.
  destruct (binary_round_aux prec emax (xorb s s) (Z.pos (m * m)) (e + e) loc_Exact)
    as [s'|s'| |s' m' e']; simpl; auto;
    (assert (Hs : s' = xorb s s) by (apply H; lia));
    rewrite xorb_nilpotent in Hs; now subst.
Qed.

(** ** A C library whose [pow] is correctly rounded

    The theorems hold for every C library; the counterexamples and the
    witnesses are evaluated with this one. *)

Lemma rounded_square_sign (x : float) : (x * x <? 0) = false.
Proof. apply ltb_zero_class, mul_self_not_negative. Qed.

Definition rounded_libm : PyFloat.Libm :=
  {| PyFloat.libm_pow2 := fun x => x * x;
     PyFloat.libm_pow2_exact := fun x _ => eq_refl;
     PyFloat.libm_pow2_sign := rounded_square_sign |}.

(** What a run of [detect_anomalies] at [sample_now] without noise
    returns. *)
Definition quiet_run : list models.MetricAnomaly :=
  Eval vm_compute in
    match detect_anomalies rounded_libm true quiet_clock quiet_noise with
    | Returned l => l
    | Raised _ => []
    end.

(** ** What a call computes: lemmas *)

Lemma scan_spec (name : string) (t : float) (pts : list point) :
  forall (acc : list models.MetricAnomaly) (st : store),
    scan name t pts acc st =
    (Returned (acc ++ map (record_of name t (window_seconds (self_obj st)))
                          (filter (above t) pts)), st).
Proof.
  induction pts as [|[ts val] pts IH]; intros acc st; simpl.
  - unfold ret. now rewrite app_nil_r.
  - unfold above at 1. simpl. destruct (t <? val).
    + unfold bind, load_self. rewrite IH. now rewrite <- app_assoc.
    + apply IH.
Qed.

Lemma check_spec (L : PyFloat.Libm) (c : bool) (name : string) (st : store) :
  check L c name st =
  (if (List.length (series_obj st) <? 2)%nat then Returned []
   else match threshold_of L c (self_obj st) (map snd (series_obj st)) with
        | Raised e => Raised e
        | Returned t =>
            Returned (map (record_of name t (window_seconds (self_obj st)))
                          (filter (above t) (series_obj st)))
        end, st).
Proof.
  unfold check, bind, load_series, load_self, lift, threshold_of.
  destruct (List.length (series_obj st) <? 2)%nat; [reflexivity|].
  destruct (squared_deviations L _ _) as [sqs|e]; [|reflexivity].
  destruct (PyFloat.math_sqrt _) as [std|e]; [|reflexivity].
  now rewrite scan_spec.
Qed.

Lemma call_check_spec (L : PyFloat.Libm) (c : bool) (tr : WindowTrigger)
  (name : string)
  (series : list point) :
  call_check L c tr name series =
  if (List.length series <? 2)%nat then Returned []
  else match threshold_of L c tr (map snd series) with
       | Raised e => Raised e
       | Returned t =>
           Returned (map (record_of name t (window_seconds tr)) (filter (above t) series))
       end.
Proof. unfold call_check. now rewrite check_spec. Qed.

Lemma filter_above_infinity (series : list point) :
  filter (above infinity) series = [].
Proof.
  induction series as [|[ts v] series IH]; simpl; [reflexivity|].
  unfold above at 1. simpl. rewrite ltb_spec.
  change (Prim2SF infinity) with (S754_infinity false).
  unfold SFltb, SFcompare. now destruct (Prim2SF v) as [| [] | |].
Qed.

(** Every list a call returns is the flagged points of the series, in
    their order, for one threshold: the computed one, or any threshold no
    point exceeds when the series is too short to compute one. *)
Lemma call_check_returned (L : PyFloat.Libm) (c : bool) (tr : WindowTrigger) (name : string)
  (series : list point) (l : list models.MetricAnomaly) :
  call_check L c tr name series = Returned l ->
  exists t : float,
    l = map (record_of name t (window_seconds tr)) (filter (above t) series)
    /\ (l <> [] -> threshold_of L c tr (map snd series) = Returned t).
Proof.
  rewrite call_check_spec.
  destruct (List.length series <? 2)%nat.
  - intros [= <-]. exists infinity. now rewrite filter_above_infinity.
  - destruct (threshold_of L c tr (map snd series)) as [t|e]; [|discriminate].
    intros [= <-]. now exists t.
Qed.

Lemma squared_deviations_spec (L : PyFloat.Libm) (mean : float)
  (values : list float) :
  squared_deviations L mean values =
  if existsb (fun v => PyFloat.square_overflows L (v - mean)) values
  then Raised OverflowError
  else Returned (map (fun v => PyFloat.pow2_value L (v - mean)) values).
Proof.
  induction values as [|v values IH]; simpl; [reflexivity|].
  rewrite FloatFacts.pow2_spec.
  destruct (PyFloat.square_overflows L (v - mean)); simpl; [reflexivity|].
  rewrite IH. now destruct (existsb _ values).
Qed.

Lemma threshold_of_overflow (L : PyFloat.Libm) (c : bool) (tr : WindowTrigger) (values : list float) :
  Spec.squares_representable L c values = false ->
  threshold_of L c tr values = Raised OverflowError.
Proof.
  unfold Spec.squares_representable, threshold_of. fold (Spec.mean c values).
  rewrite squared_deviations_spec. now destruct (existsb _ values).
Qed.

Lemma threshold_of_spec (L : PyFloat.Libm) (c : bool) (tr : WindowTrigger) (values : list float) :
  Spec.squares_representable L c values = true ->
  (Spec.variance L c values <? 0) = false ->
  threshold_of L c tr values =
  Returned (Spec.threshold L c (threshold_multiplier tr) values).
Proof.
  unfold Spec.squares_representable, threshold_of. fold (Spec.mean c values).
  rewrite squared_deviations_spec. intros Hrep Hvar.
  destruct (existsb _ values); [discriminate|].
  fold (Spec.variance L c values).
  now rewrite (FloatFacts.math_sqrt_spec _ Hvar).
Qed.

(** *** Series whose squared deviations do not depend on the C library *)

Lemma pow2_value_settled (L L' : PyFloat.Libm) (d : float) :
  PyFloat.square_settled d = true ->
  PyFloat.pow2_value L d = PyFloat.pow2_value L' d.
Proof.
  unfold PyFloat.square_settled, PyFloat.pow2_value.
  destruct (is_nan d); [reflexivity|].
  destruct (is_infinity d); [reflexivity|].
  destruct (d =? 0); [reflexivity|].
  destruct (abs d =? 1); [reflexivity|]. simpl. intros Hex.
  now rewrite (PyFloat.libm_pow2_exact L _ Hex), (PyFloat.libm_pow2_exact L' _ Hex).
Qed.

Lemma squares_settled (L L' : PyFloat.Libm) (mean : float) (values : list float) :
  forallb (fun v => PyFloat.square_settled (v - mean)) values = true ->
  map (fun v => PyFloat.pow2_value L (v - mean)) values
  = map (fun v => PyFloat.pow2_value L' (v - mean)) values
  /\ existsb (fun v => PyFloat.square_overflows L (v - mean)) values
     = existsb (fun v => PyFloat.square_overflows L' (v - mean)) values.
Proof.
  induction values as [|v values IH]; simpl; [now split|].
  intros H. apply andb_prop in H. destruct H as [Hv Hrest].
  destruct (IH Hrest) as [Hmap Hex].
  unfold PyFloat.square_overflows at 1 3.
  now rewrite (pow2_value_settled L L' _ Hv), Hmap, Hex.
Qed.

Lemma threshold_of_settled (L L' : PyFloat.Libm) (c : bool) (tr : WindowTrigger)
  (values : list float) :
  forallb (fun v => PyFloat.square_settled (v - Spec.mean c values)) values = true ->
  threshold_of L c tr values = threshold_of L' c tr values
  /\ Spec.variance L c values = Spec.variance L' c values.
Proof.
  intros H. destruct (squares_settled L L' _ _ H) as [Hmap Hex].
  unfold threshold_of, Spec.variance. fold (Spec.mean c values).
  rewrite !squared_deviations_spec, Hmap, Hex. now split.
Qed.

Lemma call_check_settled (L L' : PyFloat.Libm) (c : bool) (tr : WindowTrigger)
  (name : string) (series : list point) :
  forallb (fun v => PyFloat.square_settled (v - Spec.mean c (map snd series)))
    (map snd series) = true ->
  call_check L c tr name series = call_check L' c tr name series.
Proof.
  intros H. rewrite !call_check_spec.
  now rewrite (proj1 (threshold_of_settled L L' c tr _ H)).
Qed.

Lemma squared_deviations_constant (L : PyFloat.Libm) (v : float)
  (values : list float) :
  Forall (fun x => x = v) values ->
  exists sqs, squared_deviations L v values = Returned sqs
              /\ Forall (fun x => PyFloat.zero_or_nan x = true) sqs.
Proof.
  induction 1 as [|x values Hx _ IH]; simpl.
  - now exists [].
  - subst x. destruct IH as [sqs [-> Hsqs]].
    destruct (FloatFacts.pow2_zero_or_nan L (v - v)
                (FloatFacts.sub_diag_zero_or_nan v)) as [-> Hsq].
    exists (PyFloat.pow2_value L (v - v) :: sqs).
    split; [reflexivity|now constructor].
Qed.

(** On a constant series whose mean is the common value [v], the threshold
    is [v] plus a zero or a NaN. *)
Lemma threshold_of_constant (L : PyFloat.Libm) (c : bool) (tr : WindowTrigger) (v : float)
  (values : list float) :
  Forall (fun x => x = v) values ->
  Spec.mean c values = v ->
  exists z, PyFloat.zero_or_nan z = true
            /\ threshold_of L c tr values = Returned (v + z).
Proof.
  intros Hall Hmean. unfold threshold_of. fold (Spec.mean c values). rewrite Hmean.
  destruct (squared_deviations_constant L v values Hall) as [sqs [-> Hsqs]].
  set (variance := PyFloat.sum c sqs / PyFloat.of_len (List.length values)).
  assert (Hvar : PyFloat.zero_or_nan variance = true).
  { apply FloatFacts.div_zero_or_nan. now apply FloatFacts.sum_zero_or_nan. }
  destruct (FloatFacts.math_sqrt_zero_or_nan variance Hvar) as [-> Hstd].
  exists (threshold_multiplier tr * sqrt variance). split; [|reflexivity].
  now apply FloatFacts.mul_zero_or_nan.
Qed.

Lemma filter_above_constant (v z : float) (series : list point) :
  PyFloat.zero_or_nan z = true ->
  Forall (fun p => snd p = v) series ->
  filter (above (v + z)) series = [].
Proof.
  intros Hz. induction 1 as [|p series Hp _ IH]; simpl; [reflexivity|].
  unfold above at 1. rewrite Hp, (FloatFacts.not_above_self v z Hz). exact IH.
Qed.

Lemma In_record_of (name : string) (t : float) (ws : Z) (series : list point)
  (r : models.MetricAnomaly) :
  In r (map (record_of name t ws) (filter (above t) series)) ->
  exists p, In p series /\ (t <? snd p) = true /\ r = record_of name t ws p.
Proof.
  rewrite in_map_iff. intros [p [<- Hp]]. apply filter_In in Hp.
  destruct Hp as [Hin Hab]. now exists p.
Qed.

(** Sanity of [round4] on a few values: four decimal places, half to even
    on the exact binary value, sign kept. *)
Example round4_examples :
  PyFloat.round4 1.23456 = 1.2346
  /\ PyFloat.round4 2.675 = 2.675
  /\ PyFloat.round4 0.000085 = 0.0001
  /\ PyFloat.round4 0.00015 = 0.0001
  /\ PyFloat.round4 (-0.00001) = (-0)
  /\ PyFloat.round4 123456789012.34567 = 123456789012.3457
  /\ PyFloat.round4 infinity = infinity
  /\ PyFloat.round4 nan = nan.
Proof. vm_compute. repeat split. Qed.

(** ** Construction *)

(** C1 (as amended). Constructing a detector never fails:
    [WindowTrigger.__init__] stores [window_seconds] and
    [threshold_multiplier] as they are given, for every input, a window
    below one second and a multiplier that is not positive included. *)
Theorem init_never_fails (ws : Z) (tm : float) :
  init ws tm = Returned {| window_seconds := ws; threshold_multiplier := tm |}.
Proof. reflexivity. Qed.

(** C1, the claim as stated fails: with a multiplier of [0] or [-1], or a
    window of [0] seconds, construction returns a detector. *)
Lemma init_accepts_invalid_configuration :
  ((0 <=? 0) = true
   /\ init 300 0 = Returned {| window_seconds := 300; threshold_multiplier := 0
       |})
  /\ ((-1 <=? 0) = true
      /\ init 300 (-1) = Returned {| window_seconds := 300; threshold_multiplier := -1 |})
  /\ ((0 < 1)%Z
      /\ init 0 2.5 = Returned {| window_seconds := 0; threshold_multiplier := 2.5 |}).
Proof. repeat split. Qed.

(** ** Short series *)

(** C4. On a series of fewer than two points, [check] returns the empty
    list, whatever the configuration, and raises nothing. *)
Theorem short_series_empty (L : PyFloat.Libm) (c : bool) (tr : WindowTrigger) (name : string)
  (series : list point) :
  (List.length series < 2)%nat ->
  call_check L c tr name series = Returned [].
Proof.
  intros Hlen. rewrite call_check_spec.
  apply Nat.ltb_lt in Hlen. now rewrite Hlen.
Qed.

Lemma short_series_empty_witness :
  ((List.length (flat 0 1 42) < 2)%nat
   /\ call_check rounded_libm true default_trigger "cpu_usage" (flat 0 1 42) = Returned [])
  /\ ((List.length (@nil point) < 2)%nat
      /\ call_check rounded_libm false sensitive_trigger "error_rate" [] = Returned []).
Proof.
  split; split; try (simpl; lia); apply short_series_empty; simpl; lia.
Defined.

(** ** The threshold *)

(** C3 (as amended). On a series of two points or more whose squared
    deviations are all representable and whose variance is not negative,
    [check] returns the records of exactly the points whose value is
    strictly greater than [mean + threshold_multiplier * sqrt variance],
    with [mean] the sum of the values over their number and [variance] the
    population variance (divisor [n]), each deviation squared by the
    float power [** 2] of the interpreter, whatever its C library. *)
Theorem check_threshold_population_variance (L : PyFloat.Libm) (c : bool)
  (tr : WindowTrigger) (name : string) (series : list point) :
  (2 <= List.length series)%nat ->
  Spec.squares_representable L c (map snd series) = true ->
  (Spec.variance L c (map snd series) <? 0) = false ->
  call_check L c tr name series =
  Returned
    (map (record_of name
            (Spec.threshold L c (threshold_multiplier tr) (map snd series))
            (window_seconds tr))
       (filter
          (fun p =>
             Spec.threshold L c (threshold_multiplier tr) (map snd series)
             <? snd p)
          series)).
Proof.
  intros Hlen Hrep Hvar. rewrite call_check_spec.
  apply Nat.ltb_ge in Hlen. rewrite Hlen.
  now rewrite (threshold_of_spec L c tr _ Hrep Hvar).
Qed.

Lemma check_threshold_population_variance_witness :
  (2 <= List.length two_spikes)%nat
  /\ Spec.squares_representable rounded_libm true (map snd two_spikes) = true
  /\ (Spec.variance rounded_libm true (map snd two_spikes) <? 0) = false
  /\ Spec.threshold rounded_libm true 2.5 (map snd two_spikes) = 85
  /\ call_check rounded_libm true default_trigger "cpu_usage" two_spikes =
     Returned
       (map (record_of "cpu_usage"
               (Spec.threshold rounded_libm true 2.5 (map snd two_spikes)) 300)
          (filter (fun p => Spec.threshold rounded_libm true 2.5 (map snd two_spikes) <? snd p)
             two_spikes)).
Proof.
  assert (H1 : (2 <= List.length two_spikes)%nat) by (simpl; lia).
  assert (H2 : Spec.squares_representable rounded_libm true (map snd two_spikes) = true)
    by (vm_compute; reflexivity).
  assert (H3 : (Spec.variance rounded_libm true (map snd two_spikes) <? 0) = false)
    by (vm_compute; reflexivity).
  split; [exact H1|]. split; [exact H2|]. split; [exact H3|].
  split; [vm_compute; reflexivity|].
  exact (check_threshold_population_variance rounded_libm true default_trigger "cpu_usage"
           two_spikes H1 H2 H3).
Defined.

(** C3, the claim as stated fails: on the two points [0] and [1e200] the
    squared deviation [(-5e199) ** 2] overflows and [check] raises
    [OverflowError] instead of returning, with either summation (the
    square is beyond the floats by two hundred orders of magnitude). *)
Lemma check_raises_on_huge_spike :
  (2 <= List.length huge_spike)%nat
  /\ call_check rounded_libm false default_trigger "cpu_usage" huge_spike = Raised OverflowError
  /\ call_check rounded_libm true default_trigger "cpu_usage" huge_spike = Raised OverflowError.
Proof. split; [simpl; lia|]. split; vm_compute; reflexivity. Qed.

(** C6. Scenario 1: on the values [10, 10, 10, 10, 100] with multiplier
    [2.5], the mean is [28], the population variance [1296], its root [36]
    and the threshold [118]; [100 < 118] and [check] returns the empty
    list.  The squares [18 ** 2] and [72 ** 2] are floats, so every C
    library gives them. *)
Theorem scenario1_empty (L : PyFloat.Libm) (c : bool) (ws : Z) (name : string)
  (t0 t1 t2 t3 t4 : datetime) :
  let values := map snd (scenario1 t0 t1 t2 t3 t4) in
  Spec.mean c values = 28
  /\ Spec.variance L c values = 1296
  /\ Spec.std L c values = 36
  /\ Spec.threshold L c 2.5 values = 118
  /\ (100 <? 118) = true
  /\ call_check L c {| window_seconds := ws; threshold_multiplier := 2.5 |} name
       (scenario1 t0 t1 t2 t3 t4) = Returned [].
Proof.
  intros values.
  assert (Hset : forallb (fun v => PyFloat.square_settled (v - Spec.mean c values))
                   values = true) by (destruct c; vm_compute; reflexivity).
  assert (Hvar : Spec.variance L c values = 1296).
  { rewrite (proj2 (threshold_of_settled L rounded_libm c default_trigger _ Hset)).
    destruct c; vm_compute; reflexivity. }
  split; [destruct c; vm_compute; reflexivity|].
  split; [exact Hvar|].
  split; [unfold Spec.std; rewrite Hvar; vm_compute; reflexivity|].
  split.
  { unfold Spec.threshold, Spec.std. rewrite Hvar.
    destruct c; vm_compute; reflexivity. }
  split; [reflexivity|].
  rewrite (call_check_settled L rounded_libm c _ name _ Hset).
  destruct c; vm_compute; reflexivity.
Qed.

(** ** Constant series *)

(** C5 (as amended). On a series of two points or more whose values are
    all the same [v] and whose computed mean is exactly [v], [check]
    returns the empty list: every deviation is zero and the threshold
    compares equal to [v]. *)
Theorem constant_series_exact_mean_empty (L : PyFloat.Libm) (c : bool)
  (tr : WindowTrigger)
  (name : string) (series : list point) (v : float) :
  (2 <= List.length series)%nat ->
  Forall (fun p => snd p = v) series ->
  Spec.mean c (map snd series) = v ->
  call_check L c tr name series = Returned [].
Proof.
  intros Hlen Hall Hmean. rewrite call_check_spec.
  apply Nat.ltb_ge in Hlen. rewrite Hlen.
  assert (Hvals : Forall (fun x => x = v) (map snd series)).
  { apply Forall_map. exact Hall. }
  destruct (threshold_of_constant L c tr v _ Hvals Hmean) as [z [Hz ->]].
  now rewrite (filter_above_constant v z series Hz Hall).
Qed.

Lemma constant_series_exact_mean_empty_witness :
  (2 <= List.length (flat 0 5 40))%nat
  /\ Forall (fun p => snd p = 40) (flat 0 5 40)
  /\ Spec.mean false (map snd (flat 0 5 40)) = 40
  /\ call_check rounded_libm false default_trigger "cpu_usage" (flat 0 5 40) = Returned [].
Proof.
  assert (H1 : (2 <= List.length (flat 0 5 40))%nat) by (simpl; lia).
  assert (H2 : Forall (fun p => snd p = 40) (flat 0 5 40))
    by (repeat constructor).
  assert (H3 : Spec.mean false (map snd (flat 0 5 40)) = 40)
    by (vm_compute; reflexivity).
  split; [exact H1|]. split; [exact H2|]. split; [exact H3|].
  exact (constant_series_exact_mean_empty rounded_libm false default_trigger "cpu_usage"
           (flat 0 5 40) 40 H1 H2 H3).
Defined.

(** C5, the claim as stated fails: three points of value [0.7] sum to
    [2.0999999999999996], so the mean [0.6999999999999998] is below [0.7];
    with the multiplier [0.25] the threshold is that mean and all three
    points are flagged, with either summation. *)
Lemma constant_series_flagged :
  Forall (fun p => snd p = 0.7) flat_07
  /\ call_check rounded_libm false sensitive_trigger "cpu_usage" flat_07 =
     Returned (map (record_of "cpu_usage" 0.6999999999999998 300) flat_07)
  /\ call_check rounded_libm true sensitive_trigger "cpu_usage" flat_07 =
     Returned (map (record_of "cpu_usage" 0.6999999999999998 300) flat_07).
Proof.
  split; [repeat constructor|]. split; vm_compute; reflexivity.
Qed.

(** ** The records of one call *)

(** C2 (as amended). Every record [check] returns is built from a point
    of the series whose value is strictly greater than the threshold, the
    two compared before rounding; the record stores the four-digit
    roundings of that value and of that threshold. *)
Theorem flagged_value_above_threshold_before_rounding (L : PyFloat.Libm)
  (c : bool)
  (tr : WindowTrigger) (name : string) (series : list point)
  (l : list models.MetricAnomaly) :
  call_check L c tr name series = Returned l ->
  forall r, In r l ->
  exists (t : float) (p : point),
    threshold_of L c tr (map snd series) = Returned t
    /\ In p series
    /\ (t <? snd p) = true
    /\ models.value r = PyFloat.round4 (snd p)
    /\ models.threshold r = PyFloat.round4 t.
Proof.
  intros Hcall r Hr.
  destruct (call_check_returned L c tr name series l Hcall) as [t [-> Ht]].
  destruct (In_record_of name t _ series r Hr) as [p [Hp [Hab ->]]].
  exists t, p. repeat split; try assumption.
  apply Ht. intros Hnil. now rewrite Hnil in Hr.
Qed.

Lemma flagged_value_above_threshold_before_rounding_witness :
  call_check rounded_libm false default_trigger "cpu_usage" small_spike
  = Returned [small_spike_record]
  /\ In small_spike_record [small_spike_record]
  /\ exists (t : float) (p : point),
       threshold_of rounded_libm false default_trigger (map snd small_spike) = Returned t
       /\ In p small_spike
       /\ (t <? snd p) = true
       /\ models.value small_spike_record = PyFloat.round4 (snd p)
       /\ models.threshold small_spike_record = PyFloat.round4 t.
Proof.
  assert (H1 : call_check rounded_libm false default_trigger "cpu_usage" small_spike
               = Returned [small_spike_record]) by (vm_compute; reflexivity).
  assert (H2 : In small_spike_record [small_spike_record]) by (left; reflexivity).
  split; [exact H1|]. split; [exact H2|].
  exact (flagged_value_above_threshold_before_rounding rounded_libm false default_trigger
           "cpu_usage" small_spike [small_spike_record] H1 small_spike_record H2).
Defined.

(** C2, the claim as stated fails: on nine points at [0] and one at
    [0.0001], with the default multiplier [2.5], the threshold is
    [0.000085]; the point is flagged and its record stores the value
    [0.0001] and the threshold [0.0001], which is not strictly below. *)
Lemma rounded_value_not_above_rounded_threshold :
  call_check rounded_libm false default_trigger "cpu_usage" small_spike
  = Returned [small_spike_record]
  /\ call_check rounded_libm true default_trigger "cpu_usage" small_spike
     = Returned [small_spike_record]
  /\ (models.threshold small_spike_record <? models.value small_spike_record)
     = false.
Proof. repeat split; vm_compute; reflexivity. Qed.

(** C7. All the records one call of [check] returns carry the same
    [threshold] field. *)
Theorem records_share_threshold (L : PyFloat.Libm) (c : bool)
  (tr : WindowTrigger) (name : string)
  (series : list point) (l : list models.MetricAnomaly) :
  call_check L c tr name series = Returned l ->
  forall r1 r2, In r1 l -> In r2 l ->
  models.threshold r1 = models.threshold r2.
Proof.
  intros Hcall r1 r2 H1 H2.
  destruct (call_check_returned L c tr name series l Hcall) as [t [-> _]].
  destruct (In_record_of name t _ series r1 H1) as [p1 [_ [_ ->]]].
  destruct (In_record_of name t _ series r2 H2) as [p2 [_ [_ ->]]].
  reflexivity.
Qed.

Lemma records_share_threshold_witness :
  call_check rounded_libm true default_trigger "cpu_usage" two_spikes
  = Returned [spike_record 1080000000; spike_record 1140000000]
  /\ models.threshold (spike_record 1080000000)
     = models.threshold (spike_record 1140000000).
Proof.
  assert (H : call_check rounded_libm true default_trigger "cpu_usage" two_spikes
              = Returned [spike_record 1080000000; spike_record 1140000000])
    by (vm_compute; reflexivity).
  split; [exact H|].
  apply (records_share_threshold rounded_libm true default_trigger "cpu_usage" two_spikes _ H);
    simpl; auto.
Defined.

(** C8. The records [check] returns are those of the qualifying points of
    the series in the order of the series: the list is the series,
    filtered, with each kept point turned into its record; nothing is
    sorted. *)
Theorem records_follow_series_order (L : PyFloat.Libm) (c : bool)
  (tr : WindowTrigger)
  (name : string) (series : list point) (l : list models.MetricAnomaly) :
  call_check L c tr name series = Returned l ->
  exists t : float,
    l = map (record_of name t (window_seconds tr)) (filter (above t) series)
    /\ map models.timestamp l = map fst (filter (above t) series).
Proof.
  intros Hcall.
  destruct (call_check_returned L c tr name series l Hcall) as [t [-> _]].
  exists t. split; [reflexivity|]. now rewrite map_map.
Qed.

Lemma records_follow_series_order_witness :
  call_check rounded_libm false default_trigger "cpu_usage" unsorted_spikes
  = Returned [spike_record 1140000000; spike_record 1080000000]
  /\ exists t : float,
       [spike_record 1140000000; spike_record 1080000000]
       = map (record_of "cpu_usage" t 300) (filter (above t) unsorted_spikes)
       /\ map models.timestamp [spike_record 1140000000; spike_record 1080000000]
          = map fst (filter (above t) unsorted_spikes).
Proof.
  assert (H : call_check rounded_libm false default_trigger "cpu_usage" unsorted_spikes
              = Returned [spike_record 1140000000; spike_record 1080000000])
    by (vm_compute; reflexivity).
  split; [exact H|].
  exact (records_follow_series_order rounded_libm false default_trigger "cpu_usage"
           unsorted_spikes _ H).
Defined.

(** C9. In every record [check] returns, [value] is the value of a point
    of the series rounded to four decimal digits and [threshold] is the
    computed threshold rounded to four decimal digits. *)
Theorem records_store_rounded_fields (L : PyFloat.Libm) (c : bool)
  (tr : WindowTrigger)
  (name : string) (series : list point) (l : list models.MetricAnomaly) :
  call_check L c tr name series = Returned l ->
  forall r, In r l ->
  exists (t : float) (p : point),
    threshold_of L c tr (map snd series) = Returned t
    /\ In p series
    /\ models.timestamp r = fst p
    /\ models.value r = PyFloat.round4 (snd p)
    /\ models.threshold r = PyFloat.round4 t.
Proof.
  intros Hcall r Hr.
  destruct (call_check_returned L c tr name series l Hcall) as [t [-> Ht]].
  destruct (In_record_of name t _ series r Hr) as [p [Hp [_ ->]]].
  exists t, p. repeat split; try assumption.
  apply Ht. intros Hnil. now rewrite Hnil in Hr.
Qed.

Lemma records_store_rounded_fields_witness :
  call_check rounded_libm true default_trigger "cpu_usage" small_spike
  = Returned [small_spike_record]
  /\ exists (t : float) (p : point),
       threshold_of rounded_libm true default_trigger (map snd small_spike) = Returned t
       /\ In p small_spike
       /\ models.timestamp small_spike_record = fst p
       /\ models.value small_spike_record = PyFloat.round4 (snd p)
       /\ models.threshold small_spike_record = PyFloat.round4 t.
Proof.
  assert (H : call_check rounded_libm true default_trigger "cpu_usage" small_spike
              = Returned [small_spike_record]) by (vm_compute; reflexivity).
  split; [exact H|].
  apply (records_store_rounded_fields rounded_libm true default_trigger "cpu_usage"
           small_spike _ H).
  left; reflexivity.
Defined.

(** ** Frame *)

(** C10. A call of [check] leaves the series and the trigger as they
    were, its window and multiplier included, and a second call on the same
    series and configuration gives the same outcome as the first. *)
Theorem check_leaves_store_unchanged (L : PyFloat.Libm) (c : bool)
  (name : string) (st : store) :
  let (out1, st1) := check L c name st in
  let (out2, st2) := check L c name st1 in
  series_obj st1 = series_obj st
  /\ self_obj st1 = self_obj st
  /\ st2 = st
  /\ out2 = out1.
Proof.
  rewrite check_spec. rewrite check_spec. repeat split.
Qed.

(** ** More on [check] *)

Lemma map_outcome_records (L : PyFloat.Libm) (c : bool) (tr : WindowTrigger) (name : string)
  (series : list point) (l : list models.MetricAnomaly) :
  call_check L c tr name series = Returned l ->
  forall r, In r l ->
  exists (t : float) (p : point),
    In p series /\ r = record_of name t (window_seconds tr) p.
Proof.
  intros Hcall r Hr.
  destruct (call_check_returned L c tr name series l Hcall) as [t [-> _]].
  destruct (In_record_of name t _ series r Hr) as [p [Hp [_ ->]]].
  now exists t, p.
Qed.

(** X1. Every record [check] returns carries the metric name given to the
    call and the window of the trigger. *)
Theorem check_records_echo_name_and_window (L : PyFloat.Libm) (c : bool)
  (tr : WindowTrigger)
  (name : string) (series : list point) (l : list models.MetricAnomaly) :
  call_check L c tr name series = Returned l ->
  Forall (fun r => models.metric_name r = name
                   /\ models.window_seconds r = window_seconds tr) l.
Proof.
  intros Hcall. apply Forall_forall. intros r Hr.
  destruct (map_outcome_records L c tr name series l Hcall r Hr) as [t [p [_ ->]]].
  now split.
Qed.

Lemma check_records_echo_name_and_window_witness :
  call_check rounded_libm true default_trigger "cpu_usage" two_spikes
  = Returned [spike_record 1080000000; spike_record 1140000000]
  /\ Forall (fun r => models.metric_name r = "cpu_usage"%string
                      /\ models.window_seconds r = 300%Z)
       [spike_record 1080000000; spike_record 1140000000].
Proof.
  assert (H : call_check rounded_libm true default_trigger "cpu_usage" two_spikes
              = Returned [spike_record 1080000000; spike_record 1140000000])
    by (vm_compute; reflexivity).
  split; [exact H|].
  exact (check_records_echo_name_and_window rounded_libm true default_trigger "cpu_usage"
           two_spikes _ H).
Defined.

(** X2. [check] never returns more records than the series has points, and
    the timestamps of the records are timestamps of the series. *)
Theorem check_records_bounded_by_series (L : PyFloat.Libm) (c : bool)
  (tr : WindowTrigger)
  (name : string) (series : list point) (l : list models.MetricAnomaly) :
  call_check L c tr name series = Returned l ->
  (List.length l <= List.length series)%nat
  /\ incl (map models.timestamp l) (map fst series).
Proof.
  intros Hcall.
  destruct (call_check_returned L c tr name series l Hcall) as [t [-> _]].
  split.
  - rewrite length_map. apply filter_length_le.
  - rewrite map_map. simpl. intros ts Hts. apply in_map_iff in Hts.
    destruct Hts as [p [<- Hp]]. apply filter_In in Hp. apply in_map. tauto.
Qed.

Lemma check_records_bounded_by_series_witness :
  call_check rounded_libm false sensitive_trigger "cpu_usage" flat_07
  = Returned (map (record_of "cpu_usage" 0.6999999999999998 300) flat_07)
  /\ (List.length (map (record_of "cpu_usage" 0.6999999999999998 300) flat_07) <= List.length flat_07)%nat
  /\ incl (map models.timestamp
             (map (record_of "cpu_usage" 0.6999999999999998 300) flat_07))
       (map fst flat_07).
Proof.
  assert (H : call_check rounded_libm false sensitive_trigger "cpu_usage" flat_07
              = Returned (map (record_of "cpu_usage" 0.6999999999999998 300) flat_07))
    by (vm_compute; reflexivity).
  split; [exact H|].
  exact (check_records_bounded_by_series rounded_libm false sensitive_trigger "cpu_usage"
           flat_07 _ H).
Defined.

Lemma threshold_of_raised (L : PyFloat.Libm) (c : bool) (tr : WindowTrigger) (values : list float)
  (e : exn) :
  threshold_of L c tr values = Raised e ->
  (e = OverflowError /\ Spec.squares_representable L c values = false)
  \/ (e = ValueError /\ Spec.squares_representable L c values = true /\ (Spec.variance L c values <? 0) = true).
Proof.
  unfold Spec.squares_representable, threshold_of. fold (Spec.mean c values).
  rewrite squared_deviations_spec.
  destruct (existsb _ values).
  - intros [= <-]. now left.
  - fold (Spec.variance L c values).
    destruct (Spec.variance L c values <? 0) eqn:Hvar.
    + unfold PyFloat.math_sqrt.
      destruct (is_nan _ && negb _); [|discriminate].
      intros [= <-]. now right.
    + now rewrite (FloatFacts.math_sqrt_spec _ Hvar).
Qed.

(** X3. [check] raises [OverflowError] exactly when the series has two
    points or more and the square of some deviation from the mean is not
    representable; any other failure is a [ValueError] of [math.sqrt] on a
    negative variance. *)
Theorem check_failures (L : PyFloat.Libm) (c : bool) (tr : WindowTrigger)
  (name : string)
  (series : list point) :
  (call_check L c tr name series = Raised OverflowError <->
   (2 <= List.length series)%nat
   /\ Spec.squares_representable L c (map snd series) = false)
  /\ (call_check L c tr name series = Raised ValueError ->
      (2 <= List.length series)%nat
      /\ (Spec.variance L c (map snd series) <? 0) = true).
Proof.
  rewrite call_check_spec.
  destruct (List.length series <? 2)%nat eqn:Hlen.
  - apply Nat.ltb_lt in Hlen. repeat split; try discriminate.
    intros [H _]. lia.
  - apply Nat.ltb_ge in Hlen.
    destruct (threshold_of L c tr (map snd series)) as [t|e] eqn:Ht.
    + repeat split; try discriminate.
      intros [_ H]. now rewrite (threshold_of_overflow L c tr _ H) in Ht.
    + destruct (threshold_of_raised L c tr _ e Ht) as [[-> Hrep]|[-> [Hrep Hvar]]].
      * repeat split; try assumption; discriminate.
      * repeat split; try assumption; try discriminate.
        intros [_ H]. rewrite H in Hrep. discriminate.
Qed.

Lemma check_failures_witness :
  ((2 <= List.length huge_spike)%nat
   /\ Spec.squares_representable rounded_libm true (map snd huge_spike) = false)
  /\ call_check rounded_libm true default_trigger "cpu_usage" huge_spike = Raised OverflowError.
Proof.
  assert (H : (2 <= List.length huge_spike)%nat
              /\ Spec.squares_representable rounded_libm true (map snd huge_spike) = false)
    by (split; [simpl; lia | vm_compute; reflexivity]).
  split; [exact H|].
  exact (proj2 (proj1 (check_failures rounded_libm true default_trigger "cpu_usage" huge_spike)) H).
Defined.

(** *** A NaN among the values *)

Lemma nan_class (x : float) : is_nan x = true -> x = nan.
Proof.
  rewrite FloatFacts.is_nan_class. intros H. apply FloatFacts.eq_of_Prim2SF.
  change (Prim2SF nan) with S754_nan. now destruct (Prim2SF x).
Qed.

Lemma add_nan_l (y : float) : nan + y = nan.
Proof.
  apply FloatFacts.eq_of_Prim2SF. rewrite add_spec.
  change (Prim2SF nan) with S754_nan. reflexivity.
Qed.

Lemma add_nan_r (x : float) : x + nan = nan.
Proof.
  apply FloatFacts.eq_of_Prim2SF. rewrite add_spec.
  change (Prim2SF nan) with S754_nan. now destruct (Prim2SF x).
Qed.

Lemma sub_nan_r (x : float) : x - nan = nan.
Proof.
  apply FloatFacts.eq_of_Prim2SF. rewrite sub_spec.
  change (Prim2SF nan) with S754_nan. now destruct (Prim2SF x).
Qed.

Lemma div_nan_l (y : float) : nan / y = nan.
Proof.
  apply FloatFacts.eq_of_Prim2SF. rewrite div_spec.
  change (Prim2SF nan) with S754_nan. reflexivity.
Qed.

Lemma fold_add_nan (l : list float) : fold_left add l nan = nan.
Proof. induction l as [|x l IH]; simpl; [reflexivity|]. now rewrite add_nan_l. Qed.

Lemma fold_add_with_nan (l : list float) :
  In nan l -> forall acc, fold_left add l acc = nan.
Proof.
  induction l as [|x l IH]; intros Hin acc; simpl; [easy|].
  destruct Hin as [->|Hin]; [|now apply IH].
  rewrite add_nan_r. apply fold_add_nan.
Qed.

Lemma neumaier_nan (l : list float) :
  forall c, PyFloat.neumaier nan c l = nan.
Proof.
  induction l as [|x l IH]; intros c; simpl.
  - rewrite add_nan_l. now destruct (negb (c =? 0) && is_finite c).
  - rewrite add_nan_l. apply IH.
Qed.

Lemma neumaier_with_nan (l : list float) :
  In nan l -> forall f c, PyFloat.neumaier f c l = nan.
Proof.
  induction l as [|x l IH]; intros Hin f c; simpl; [easy|].
  destruct Hin as [->|Hin]; [|now apply IH].
  rewrite add_nan_r. apply neumaier_nan.
Qed.

(** The sum of floats of which one is a NaN is a NaN. *)
Lemma sum_with_nan (c : bool) (l : list float) :
  In nan l -> PyFloat.sum c l = nan.
Proof.
  intros Hin. destruct c; simpl.
  - destruct l as [|x l]; [easy|]. simpl.
    destruct Hin as [->|Hin]; [|now apply neumaier_with_nan].
    rewrite add_nan_r. apply neumaier_nan.
  - now apply fold_add_with_nan.
Qed.

Lemma squared_deviations_nan_mean (L : PyFloat.Libm) (values : list float) :
  squared_deviations L nan values = Returned (map (fun _ => nan) values).
Proof.
  induction values as [|v values IH]; simpl; [reflexivity|].
  now rewrite sub_nan_r, IH.
Qed.

Lemma threshold_of_with_nan (L : PyFloat.Libm) (c : bool) (tr : WindowTrigger) (values : list float) :
  In nan values -> threshold_of L c tr values = Returned nan.
Proof.
  intros Hin. unfold threshold_of.
  rewrite (sum_with_nan c values Hin), div_nan_l, squared_deviations_nan_mean.
  rewrite (sum_with_nan c (map (fun _ => nan) values)), div_nan_l.
  - simpl. now rewrite add_nan_l.
  - apply in_map_iff. now exists nan.
Qed.

Lemma filter_above_nan (series : list point) : filter (above nan) series = [].
Proof.
  induction series as [|[ts v] series IH]; simpl; [reflexivity|].
  unfold above at 1. simpl. rewrite ltb_spec.
  change (Prim2SF nan) with S754_nan. exact IH.
Qed.

(** X4. When a value of the series is a NaN, [check] flags nothing and
    raises nothing: the mean, the variance and the threshold are NaN, and
    no value compares greater than a NaN. *)
Theorem check_nan_value_flags_nothing (L : PyFloat.Libm) (c : bool)
  (tr : WindowTrigger)
  (name : string) (series : list point) :
  (exists p, In p series /\ is_nan (snd p) = true) ->
  call_check L c tr name series = Returned [].
Proof.
  intros [p [Hp Hnan]]. rewrite call_check_spec.
  destruct (List.length series <? 2)%nat; [reflexivity|].
  assert (Hin : In nan (map snd series)).
  { apply in_map_iff. exists p. split; [now apply nan_class|assumption]. }
  rewrite (threshold_of_with_nan L c tr _ Hin).
  now rewrite filter_above_nan.
Qed.

Lemma check_nan_value_flags_nothing_witness :
  (exists p, In p nan_series /\ is_nan (snd p) = true)
  /\ call_check rounded_libm true default_trigger "cpu_usage" nan_series = Returned [].
Proof.
  assert (H : exists p, In p nan_series /\ is_nan (snd p) = true).
  { exists (60000000%Z, nan). split; [right; left; reflexivity|reflexivity]. }
  split; [exact H|].
  exact (check_nan_value_flags_nothing rounded_libm true default_trigger "cpu_usage" nan_series H).
Defined.

(** *** What the detection does not depend on *)

Lemma filter_above_relabel (f : datetime -> datetime) (t : float)
  (series : list point) :
  filter (above t) (map (fun p : point => (f (fst p), snd p)) series)
  = map (fun p : point => (f (fst p), snd p)) (filter (above t) series).
Proof.
  induction series as [|p series IH]; simpl; [reflexivity|].
  rewrite IH. unfold above. simpl. now destruct (t <? snd p).
Qed.

(** X5. The timestamps play no part in the detection: changing the
    timestamps of the series by any function changes the timestamps of the
    records the same way, and nothing else. *)
Theorem check_ignores_timestamps (L : PyFloat.Libm) (c : bool)
  (tr : WindowTrigger) (name : string)
  (f : datetime -> datetime) (series : list point) :
  call_check L c tr name (map (fun p : point => (f (fst p), snd p)) series)
  = outcome_map (map (with_timestamp f)) (call_check L c tr name series).
Proof.
  assert (Hvals : map snd (map (fun p : point => (f (fst p), snd p)) series)
                  = map snd series) by now rewrite map_map.
  rewrite !call_check_spec. rewrite length_map, Hvals.
  destruct (List.length series <? 2)%nat; [reflexivity|].
  destruct (threshold_of L c tr (map snd series)) as [t|e]; [|reflexivity].
  unfold outcome_map. now rewrite filter_above_relabel, !map_map.
Qed.

(** X6. The metric name and the window take no part in the detection
    either: two triggers with the same multiplier flag the same points
    with the same stored value and threshold, under any two names. *)
Theorem check_ignores_name_and_window (L : PyFloat.Libm) (c : bool)
  (tr tr' : WindowTrigger)
  (name name' : string) (series : list point) :
  threshold_multiplier tr' = threshold_multiplier tr ->
  call_check L c tr' name' series
  = outcome_map (map (retagged name' (window_seconds tr')))
      (call_check L c tr name series).
Proof.
  intros Htm. rewrite !call_check_spec.
  destruct (List.length series <? 2)%nat; [reflexivity|].
  unfold threshold_of. rewrite Htm.
  destruct (squared_deviations L _ _) as [sqs|e]; [|reflexivity].
  destruct (PyFloat.math_sqrt _) as [std|e]; [|reflexivity].
  simpl. now rewrite map_map.
Qed.

Lemma check_ignores_name_and_window_witness :
  threshold_multiplier {| window_seconds := 60; threshold_multiplier := 2.5 |}
  = threshold_multiplier default_trigger
  /\ call_check rounded_libm false {| window_seconds := 60; threshold_multiplier := 2.5 |}
       "error_rate" two_spikes
     = outcome_map (map (retagged "error_rate" 60))
         (call_check rounded_libm false default_trigger "cpu_usage" two_spikes).
Proof.
  split; [reflexivity|].
  apply (check_ignores_name_and_window rounded_libm false default_trigger
           {| window_seconds := 60; threshold_multiplier := 2.5 |}).
  reflexivity.
Defined.

(** *** The variance under the left-to-right sum *)

Lemma add_not_negative (x y : float) :
  not_negative (Prim2SF x) -> not_negative (Prim2SF y) ->
  not_negative (Prim2SF (x + y)).
Proof.
  rewrite add_spec.
  destruct (Prim2SF x) as [[]|[]| |[] mx ex]; simpl; try easy;
    destruct (Prim2SF y) as [[]|[]| |[] my ey]; simpl; try easy.
  intros _ _. unfold SF64add, SFadd. simpl.
  pose proof (binary_round_sign false
                (fst (shl_align mx ex (Z.min ex ey)) + fst (shl_align my ey (Z.min ex ey)))
                (Z.min ex ey)) as H.
  destruct (binary_round prec emax false _ (Z.min ex ey)); simpl; auto; now subst.
Qed.

Lemma fold_add_not_negative (l : list float) :
  forall acc, not_negative (Prim2SF acc) ->
  Forall (fun x => not_negative (Prim2SF x)) l ->
  not_negative (Prim2SF (fold_left add l acc)).
Proof.
  induction l as [|x l IH]; intros acc Hacc Hl; simpl; [assumption|].
  inversion Hl; subst. apply IH; [now apply add_not_negative|assumption].
Qed.

Lemma SFdiv_core_quotient_nonneg (m1 m2 : positive) (e1 e2 : Z) :
  (0 <= fst (fst (SFdiv_core_binary prec emax (Z.pos m1) e1 (Z.pos m2) e2)))%Z.
Proof.
  unfold SFdiv_core_binary.
  set (s := (e1 - e2 - _)%Z).
  set (m' := match s with Z0 => _ | Zpos _ => _ | Zneg _ => _ end).
  assert (Hm' : (0 <= m')%Z).
  { unfold m'. destruct s; try lia. apply Z.shiftl_nonneg. lia. }
  assert (Hq : fst (Z.div_eucl m' (Z.pos m2)) = (m' / Z.pos m2)%Z) by reflexivity.
  destruct (Z.div_eucl m' (Z.pos m2)) as [q r]. simpl in *. subst q.
  apply Z.div_pos; lia.
Qed.

Lemma div_not_negative (x y : float) :
  not_negative (Prim2SF x) -> sign_clear (Prim2SF y) ->
  not_negative (Prim2SF (x / y)).
Proof.
  rewrite div_spec.
  destruct (Prim2SF x) as [[]|[]| |[] mx ex]; simpl; try easy;
    destruct (Prim2SF y) as [sy|sy| |sy my ey]; simpl; try easy;
    intros _ Hy; subst sy; simpl; auto.
  unfold SF64div, SFdiv.
  pose proof (SFdiv_core_quotient_nonneg mx my ex ey) as Hq.
  destruct (SFdiv_core_binary prec emax (Z.pos mx) ex (Z.pos my) ey) as [[mz ez] lz].
  simpl in Hq.
  pose proof (binary_round_aux_sign false mz ez lz Hq) as H.
  destruct (binary_round_aux prec emax false mz ez lz); simpl; auto; now subst.
Qed.

Lemma pow2_value_not_negative (L : PyFloat.Libm) (d : float) :
  not_negative (Prim2SF (PyFloat.pow2_value L d)).
Proof.
  unfold PyFloat.pow2_value.
  destruct (is_nan d) eqn:Hn.
  { rewrite FloatFacts.is_nan_class in Hn. now destruct (Prim2SF d). }
  destruct (is_infinity d).
  { rewrite abs_spec. now destruct (Prim2SF d) as [[]|[]| |[] ? ?]. }
  destruct (d =? 0); [exact I|].
  destruct (abs d =? 1); [exact I|].
  apply ltb_zero_class, PyFloat.libm_pow2_sign.
Qed.

Lemma variance_left_to_right_not_negative (L : PyFloat.Libm)
  (values : list float) :
  (Spec.variance L false values <? 0) = false.
Proof.
  apply ltb_zero_class. unfold Spec.variance.
  apply div_not_negative; [|apply of_len_sign_clear].
  apply fold_add_not_negative; [exact I|].
  apply Forall_map, Forall_forall. intros v _. apply pow2_value_not_negative.
Qed.

(** X7. With the left-to-right [sum] (up to CPython 3.11) the computed
    variance is never negative, no square [** 2] being negative, so
    [math.sqrt] never raises: on every series [check] returns a list or
    raises [OverflowError]. *)
Theorem check_left_to_right_sum_never_value_error (L : PyFloat.Libm)
  (tr : WindowTrigger)
  (name : string) (series : list point) :
  (Spec.variance L false (map snd series) <? 0) = false
  /\ ((exists l, call_check L false tr name series = Returned l) \/ call_check L false tr name series = Raised OverflowError).
Proof.
  split; [apply variance_left_to_right_not_negative|].
  rewrite call_check_spec.
  destruct (List.length series <? 2)%nat; [left; now exists []|].
  destruct (threshold_of L false tr (map snd series)) as [t|e] eqn:Ht.
  - left. eauto.
  - right. destruct (threshold_of_raised L false tr _ e Ht) as [[-> _]|[_ [_ Hvar]]].
    + reflexivity.
    + now rewrite variance_left_to_right_not_negative in Hvar.
Qed.

(** ** The mock series *)

Lemma minus_seconds_returned (d : datetime) (k : Z) (ts : datetime) :
  PyTime.minus_seconds d k = Returned ts ->
  ts = (d - k * 1000000)%Z /\ PyTime.in_range ts = true.
Proof.
  unfold PyTime.minus_seconds.
  destruct (_ && _)%bool; [|discriminate].
  destruct (PyTime.in_range (d - k * 1000000)) eqn:Hr; [|discriminate].
  intros [= <-]. now split.
Qed.

Lemma minus_seconds_in_range (d : datetime) (k bound : Z) :
  (0 <= k <= bound)%Z -> (bound <= 86399)%Z ->
  PyTime.in_range d = true ->
  PyTime.in_range (d - bound * 1000000) = true ->
  PyTime.minus_seconds d k = Returned (d - k * 1000000)%Z.
Proof.
  unfold PyTime.minus_seconds, PyTime.in_range. intros Hk Hb Hd Hlow.
  apply andb_prop in Hd, Hlow. destruct Hd as [_ Hd], Hlow as [Hlow _].
  apply Z.leb_le in Hd, Hlow.
  assert (Hq : (k / 86400 = 0)%Z) by (apply Z.div_small; lia).
  rewrite Hq. simpl.
  assert (Hr : ((PyTime.datetime_min <=? d - k * 1000000)
                && (d - k * 1000000 <=? PyTime.datetime_max))%Z = true).
  { apply andb_true_intro. split; apply Z.leb_le; lia. }
  now rewrite Hr.
Qed.

Lemma generate_loop_stamps (now : datetime) (noise : nat -> float)
  (name : string) (n : nat) (base : float) (indices : list nat) :
  forall series out,
    generate_loop now noise name n base indices series = Returned out ->
    map fst out = map fst series ++ map (stamp now n) indices
    /\ Forall (fun i => PyTime.in_range (stamp now n i) = true) indices.
Proof.
  induction indices as [|i indices IH]; intros series out; simpl.
  - intros [= <-]. now rewrite app_nil_r.
  - destruct (PyTime.minus_seconds now _) as [ts|e] eqn:Hts; [|discriminate].
    destruct (spike_of name n i base) as [sp|e]; [|discriminate].
    intros Hloop. apply IH in Hloop. destruct Hloop as [Hfst Hall].
    apply minus_seconds_returned in Hts. destruct Hts as [-> Hr].
    split.
    + rewrite Hfst, map_app, <- app_assoc. reflexivity.
    + constructor; assumption.
Qed.

Lemma stamps_increasing (now : datetime) (n len : nat) :
  forall a, Sorted.StronglySorted Z.lt (map (stamp now n) (seq a len)).
Proof.
  induction len as [|len IH]; intros a; simpl; constructor; [apply IH|].
  apply Forall_forall. intros ts Hts. apply in_map_iff in Hts.
  destruct Hts as [i [<- Hi]]. apply in_seq in Hi. unfold stamp. lia.
Qed.

(** X8. A series [generate_mock_timeseries] returns has [n] points; point
    [i] is stamped [(n - i)] minutes before the instant of the call, so the
    timestamps are strictly increasing, a minute apart, all valid
    datetimes before that instant. *)
Theorem generate_series_shape (now : datetime) (noise : nat -> float)
  (name : string) (n : Z) (series : list point) :
  generate_mock_timeseries now noise name n = Returned series ->
  List.length series = Z.to_nat n
  /\ map fst series = map (stamp now (Z.to_nat n)) (seq 0 (Z.to_nat n))
  /\ Sorted.StronglySorted Z.lt (map fst series)
  /\ Forall (fun ts => (ts < now)%Z /\ PyTime.in_range ts = true) (map fst series).
Proof.
  unfold generate_mock_timeseries. intros Hgen.
  apply generate_loop_stamps in Hgen. simpl in Hgen. destruct Hgen as [Hfst Hall].
  assert (Hlen : List.length series = Z.to_nat n).
  { pose proof (f_equal (@List.length datetime) Hfst) as H.
    rewrite !length_map, length_seq in H. exact H. }
  repeat split; try assumption.
  - rewrite Hfst. apply stamps_increasing.
  - rewrite Hfst. apply Forall_forall. intros ts Hts. apply in_map_iff in Hts.
    destruct Hts as [i [<- Hi]]. split.
    + apply in_seq in Hi. unfold stamp. lia.
    + rewrite Forall_forall in Hall. now apply Hall.
Qed.

Lemma spike_of_100 (name : string) (i : nat) :
  spike_of name 100 i (base_level name) = Returned (spike100 name i).
Proof.
  unfold spike_of, spike100.
  assert (H : PyNum.int (PyFloat.of_len 100 * 0.9) = Returned 90%Z)
    by (vm_compute; reflexivity).
  rewrite H.
  assert (Hcmp : (90 <=? Z.of_nat i)%Z = (90 <=? i)%nat).
  { destruct (90 <=? i)%nat eqn:Hi.
    - apply Z.leb_le. apply Nat.leb_le in Hi. lia.
    - apply Z.leb_gt. apply Nat.leb_gt in Hi. lia. }
  rewrite Hcmp.
  destruct (String.eqb name "checkout_latency_p99"); [reflexivity|].
  destruct (String.eqb name "heap_usage_mb"); reflexivity.
Qed.

Lemma generate_loop_100 (now : datetime) (noise : nat -> float) (name : string)
  (indices : list nat) :
  PyTime.in_range now = true ->
  PyTime.in_range (now - 6000 * 1000000) = true ->
  Forall (fun i => (i < 100)%nat) indices ->
  forall series,
    generate_loop now noise name 100 (base_level name) indices series =
    Returned
      (series ++
       map (fun i => (stamp now 100 i, base_level name + noise i + spike100 name i))
         indices).
Proof.
  intros Hnow Hlow. induction indices as [|i indices IH]; intros Hall series.
  - simpl. now rewrite app_nil_r.
  - inversion Hall as [|? ? Hi Hall']; subst.
    cbn [generate_loop].
    assert (Hk : (0 <= (Z.of_nat 100 - Z.of_nat i) * 60 <= 6000)%Z) by lia.
    rewrite (minus_seconds_in_range now _ 6000 Hk ltac:(lia) Hnow Hlow).
    rewrite spike_of_100, (IH Hall'), <- app_assoc. reflexivity.
Qed.

(** X9. For the default size of 100 points, whenever the instant of the
    call and the instant 100 minutes before are valid datetimes, the
    generator returns
    for every metric name and every noise: point [i] is the base level
    plus the noise plus the spike, the spike being zero on the first
    ninety points and full on the last ten (the ramp [i / 100 * 1300] for
    the heap). *)
Theorem generate_default_series (now : datetime) (noise : nat -> float)
  (name : string) :
  PyTime.in_range now = true ->
  PyTime.in_range (now - 6000 * 1000000) = true ->
  generate_mock_timeseries now noise name 100 =
  Returned
    (map (fun i => (stamp now 100 i, base_level name + noise i + spike100 name i))
       (seq 0 100)).
Proof.
  intros Hnow Hlow. unfold generate_mock_timeseries.
  change (Z.to_nat 100) with 100%nat.
  rewrite (generate_loop_100 now noise name (seq 0 100) Hnow Hlow); [reflexivity|].
  apply Forall_forall. intros i Hi. apply in_seq in Hi. lia.
Qed.

(** X10. The edge cases of the size: for [n <= 0] the generator returns the
    empty series; for [n > 0], when [n] minutes before the instant of the
    call is before the year 1, it raises [OverflowError]. *)
Theorem generate_edge_sizes (now : datetime) (noise : nat -> float)
  (name : string) (n : Z) :
  ((n <= 0)%Z -> generate_mock_timeseries now noise name n = Returned [])
  /\ ((0 < n)%Z -> (now - n * 60 * 1000000 < PyTime.datetime_min)%Z -> generate_mock_timeseries now noise name n = Raised OverflowError).
Proof.
  unfold generate_mock_timeseries. split.
  - intros Hn. assert (H : Z.to_nat n = 0%nat) by lia. now rewrite H.
  - intros Hn Hlow. destruct (Z.to_nat n) as [|m] eqn:Hm; [lia|].
    cbn [seq generate_loop]. unfold PyTime.minus_seconds.
    destruct (_ && _)%bool; [|reflexivity].
    assert (Hr : PyTime.in_range
                   (now - (Z.of_nat (S m) - Z.of_nat 0) * 60 * 1000000) = false).
    { unfold PyTime.in_range. apply andb_false_intro1. apply Z.leb_gt.
      rewrite <- Hm. rewrite Z2Nat.id by lia. simpl. lia. }
    now rewrite Hr.
Qed.

Lemma generate_series_shape_witness :
  generate_mock_timeseries sample_now quiet "cpu_usage" 3 = Returned sample_series3
  /\ List.length sample_series3 = Z.to_nat 3
  /\ map fst sample_series3 = map (stamp sample_now (Z.to_nat 3)) (seq 0 (Z.to_nat 3))
  /\ Sorted.StronglySorted Z.lt (map fst sample_series3)
  /\ Forall (fun ts => (ts < sample_now)%Z /\ PyTime.in_range ts = true)
       (map fst sample_series3).
Proof.
  assert (H : generate_mock_timeseries sample_now quiet "cpu_usage" 3
              = Returned sample_series3) by (vm_compute; reflexivity).
  split; [exact H|].
  exact (generate_series_shape sample_now quiet "cpu_usage" 3 sample_series3 H).
Defined.

Lemma generate_default_series_witness :
  PyTime.in_range sample_now = true
  /\ PyTime.in_range (sample_now - 6000 * 1000000) = true
  /\ generate_mock_timeseries sample_now quiet "heap_usage_mb" 100 =
     Returned
       (map (fun i => (stamp sample_now 100 i,
                       base_level "heap_usage_mb" + quiet i
                       + spike100 "heap_usage_mb" i))
          (seq 0 100)).
Proof.
  assert (H1 : PyTime.in_range sample_now = true) by reflexivity.
  assert (H2 : PyTime.in_range (sample_now - 6000 * 1000000) = true) by reflexivity.
  split; [exact H1|]. split; [exact H2|].
  exact (generate_default_series sample_now quiet "heap_usage_mb" H1 H2).
Defined.

Lemma generate_edge_sizes_witness :
  ((0 <= 0)%Z
   /\ generate_mock_timeseries sample_now quiet "cpu_usage" 0 = Returned [])
  /\ ((0 < 1)%Z
      /\ (PyTime.datetime_min - 1 * 60 * 1000000 < PyTime.datetime_min)%Z
      /\ generate_mock_timeseries PyTime.datetime_min quiet "cpu_usage" 1
         = Raised OverflowError).
Proof.
  assert (H0 : (0 <= 0)%Z) by lia.
  assert (H1 : (0 < 1)%Z) by lia.
  assert (H2 : (PyTime.datetime_min - 1 * 60 * 1000000 < PyTime.datetime_min)%Z)
    by (unfold PyTime.datetime_min; lia).
  split; [split; [exact H0|] | split; [exact H1 | split; [exact H2|]]].
  - exact (proj1 (generate_edge_sizes sample_now quiet "cpu_usage" 0) H0).
  - exact (proj2 (generate_edge_sizes PyTime.datetime_min quiet "cpu_usage" 1) H1 H2).
Defined.

(** ** [detect_anomalies] *)

Section DetectFacts.

Variable L : PyFloat.Libm.
Variable c : bool.
Variable clock : nat -> datetime.
Variable noise : nat -> nat -> float.


Lemma detect_loop_groups (tr : WindowTrigger) (ms : list string) :
  forall k acc out,
    detect_loop L c clock noise tr k ms acc = Returned out ->
    exists groups, out = acc ++ List.concat groups
                   /\ grouped (found_for L c clock noise tr) k ms groups.
Proof.
  induction ms as [|m ms IH]; intros k acc out; simpl.
  - intros [= <-]. exists []. now rewrite app_nil_r.
  - destruct (generate_mock_timeseries _ _ m 100) as [series|e] eqn:Hgen; [|discriminate].
    destruct (call_check L c tr m series) as [g|e] eqn:Hcall; [|discriminate].
    intros Hloop. apply IH in Hloop. destruct Hloop as [groups [-> Hgroups]].
    exists (g :: groups). simpl. rewrite <- app_assoc. split; [reflexivity|].
    split; [|assumption]. now exists series.
Qed.

Lemma grouped_impl (P Q : nat -> string -> list models.MetricAnomaly -> Prop)
  (ms : list string) :
  (forall k m g, P k m g -> Q k m g) ->
  forall k groups, grouped P k ms groups -> grouped Q k ms groups.
Proof.
  intros HPQ. induction ms as [|m ms IH]; intros k [|g groups]; simpl; auto.
  intros [HP Hrest]. split; auto.
Qed.

Lemma found_for_records (tr : WindowTrigger) (k : nat) (m : string)
  (g : list models.MetricAnomaly) :
  found_for L c clock noise tr k m g ->
  (List.length g <= 100)%nat
  /\ Forall (fun r =>
               models.metric_name r = m
               /\ models.window_seconds r = window_seconds tr
               /\ exists j, (1 <= j <= 100)%Z
                            /\ models.timestamp r
                               = (clock k - j * 60 * 1000000)%Z) g.
Proof.
  intros [series [Hgen Hcall]].
  unfold generate_mock_timeseries in Hgen. change (Z.to_nat 100) with 100%nat in Hgen.
  apply generate_loop_stamps in Hgen. destruct Hgen as [Hfst _].
  change (map fst (@nil point)) with (@nil datetime) in Hfst.
  rewrite app_nil_l in Hfst.
  assert (Hlen : List.length series = 100%nat).
  { pose proof (f_equal (@List.length datetime) Hfst) as H.
    rewrite !length_map, length_seq in H. exact H. }
  destruct (call_check_returned L c tr m series g Hcall) as [t [-> _]].
  split.
  - rewrite length_map, <- Hlen. apply filter_length_le.
  - apply Forall_forall. intros r Hr.
    destruct (In_record_of m t _ series r Hr) as [p [Hp [_ ->]]].
    repeat split.
    assert (Hts : In (fst p) (map (stamp (clock k) 100) (seq 0 100))).
    { rewrite <- Hfst. now apply in_map. }
    apply in_map_iff in Hts. destruct Hts as [i [Hi Hseq]]. apply in_seq in Hseq.
    exists (Z.of_nat 100 - Z.of_nat i)%Z. split; [lia|].
    simpl. rewrite <- Hi. reflexivity.
Qed.

(** X11. What [detect_anomalies] returns is one group of records for each
    of the five metrics, in the order of the metrics: the records of a
    group carry the name of its metric and the window of 300 seconds, and
    a group has at most 100 records. *)
Theorem detect_anomalies_grouped_by_metric (l : list models.MetricAnomaly) :
  detect_anomalies L c clock noise = Returned l ->
  exists groups,
    l = List.concat groups
    /\ grouped (fun _ m g =>
                  (List.length g <= 100)%nat
                  /\ Forall (fun r => models.metric_name r = m
                                      /\ models.window_seconds r = 300%Z) g)
         0 metrics groups.
Proof.
  unfold detect_anomalies, init. intros Hdet.
  apply detect_loop_groups in Hdet. destruct Hdet as [groups [-> Hgroups]].
  exists groups. split; [reflexivity|].
  apply (grouped_impl (found_for L c clock noise {| window_seconds := 300;
                                    threshold_multiplier := 2.5 |})); [|assumption].
  intros k m g Hfound. apply found_for_records in Hfound.
  destruct Hfound as [Hlen Hall]. split; [assumption|].
  apply Forall_forall. intros r Hr. rewrite Forall_forall in Hall.
  specialize (Hall r Hr). tauto.
Qed.

(** X12. Every record [detect_anomalies] returns for the [k]-th metric is
    stamped a whole number of minutes, between 1 and 100, before the
    instant at which the series of that metric was generated. *)
Theorem detect_anomalies_timestamps (l : list models.MetricAnomaly) :
  detect_anomalies L c clock noise = Returned l ->
  exists groups,
    l = List.concat groups
    /\ grouped (fun k _ g =>
                  Forall (fun r =>
                            exists j, (1 <= j <= 100)%Z
                                      /\ models.timestamp r
                                         = (clock k - j * 60 * 1000000)%Z) g)
         0 metrics groups.
Proof.
  unfold detect_anomalies, init. intros Hdet.
  apply detect_loop_groups in Hdet. destruct Hdet as [groups [-> Hgroups]].
  exists groups. split; [reflexivity|].
  apply (grouped_impl (found_for L c clock noise {| window_seconds := 300;
                                    threshold_multiplier := 2.5 |})); [|assumption].
  intros k m g Hfound. apply found_for_records in Hfound.
  destruct Hfound as [_ Hall].
  apply Forall_forall. intros r Hr. rewrite Forall_forall in Hall.
  specialize (Hall r Hr). tauto.
Qed.

End DetectFacts.

Lemma detect_anomalies_grouped_by_metric_witness :
  detect_anomalies rounded_libm true quiet_clock quiet_noise = Returned quiet_run
  /\ exists groups,
       quiet_run = List.concat groups
       /\ grouped (fun _ m g =>
                     (List.length g <= 100)%nat
                     /\ Forall (fun r => models.metric_name r = m
                                         /\ models.window_seconds r = 300%Z) g)
            0 metrics groups.
Proof.
  assert (H : detect_anomalies rounded_libm true quiet_clock quiet_noise = Returned quiet_run)
    by (vm_compute; reflexivity).
  split; [exact H|].
  exact (detect_anomalies_grouped_by_metric rounded_libm true quiet_clock quiet_noise quiet_run H).
Defined.

Lemma detect_anomalies_timestamps_witness :
  detect_anomalies rounded_libm true quiet_clock quiet_noise = Returned quiet_run
  /\ exists groups,
       quiet_run = List.concat groups
       /\ grouped (fun k _ g =>
                     Forall (fun r =>
                               exists j, (1 <= j <= 100)%Z
                                         /\ models.timestamp r
                                            = (quiet_clock k - j * 60 * 1000000)%Z) g)
            0 metrics groups.
Proof.
  assert (H : detect_anomalies rounded_libm true quiet_clock quiet_noise = Returned quiet_run)
    by (vm_compute; reflexivity).
  split; [exact H|].
  exact (detect_anomalies_timestamps rounded_libm true quiet_clock quiet_noise quiet_run H).
Defined.

(** ** [main.py] *)

Lemma fold_max_spec (l : list datetime) :
  forall d,
    let m := fold_left (fun m x => if (m <? x)%Z then x else m) l d in
    In m (d :: l) /\ (d <= m)%Z /\ Forall (fun x => (x <= m)%Z) l.
Proof.
  induction l as [|x l IH]; intros d; simpl.
  - repeat split; auto; lia.
  - specialize (IH (if (d <? x)%Z then x else d)). simpl in IH.
    destruct IH as [Hin [Hle Hall]].
    destruct (Z.ltb_spec d x) as [Hdx|Hdx].
    + repeat split; [destruct Hin; auto | lia | constructor; [lia|assumption]].
    + repeat split; [destruct Hin; auto | lia | constructor; [lia|assumption]].
Qed.

(** X13. In [main], the guard on the empty list keeps [max] from ever
    raising [ValueError]; when there are anomalies, [triggered_at] is the
    timestamp of one of them and no anomaly is later, and the window
    starts exactly thirty minutes before. *)
Theorem incident_window_latest_anomaly (anomalies : list models.MetricAnomaly) :
  (incident_window anomalies = Returned None <-> anomalies = [])
  /\ incident_window anomalies <> Raised ValueError
  /\ (forall triggered_at window_start,
        incident_window anomalies = Returned (Some (triggered_at, window_start)) ->
        In triggered_at (map models.timestamp anomalies)
        /\ Forall (fun r => (models.timestamp r <= triggered_at)%Z) anomalies
        /\ window_start = (triggered_at - 1800 * 1000000)%Z).
Proof.
  destruct anomalies as [|r anomalies].
  - simpl. split; [split; reflexivity|]. split; discriminate.
  - unfold incident_window. cbn [map py_max].
    pose proof (fold_max_spec (map models.timestamp anomalies) (models.timestamp r))
      as Hmax. simpl in Hmax.
    set (m := fold_left _ _ _) in *.
    destruct Hmax as [Hin [Hle Hall]].
    destruct (PyTime.minus_seconds m 1800) as [ws|e] eqn:Hws.
    + split; [split; discriminate|]. split; [discriminate|].
      intros t w [= <- <-]. split; [exact Hin|]. split.
      * constructor; [assumption|].
        apply Forall_forall. intros r' Hr'. rewrite Forall_forall in Hall.
        apply Hall. now apply in_map.
      * apply minus_seconds_returned in Hws. tauto.
    + split; [split; discriminate|]. split; [|discriminate].
      intros [= ->]. unfold PyTime.minus_seconds in Hws.
      destruct (_ && _)%bool; [|discriminate].
      destruct (PyTime.in_range _); discriminate.
Qed.

Lemma incident_window_latest_anomaly_witness :
  incident_window [late_record; early_record]
  = Returned (Some (1762189940000000, 1762188140000000)%Z)
  /\ In 1762189940000000%Z (map models.timestamp [late_record; early_record])
  /\ Forall (fun r => (models.timestamp r <= 1762189940000000)%Z)
       [late_record; early_record]
  /\ 1762188140000000%Z = (1762189940000000 - 1800 * 1000000)%Z.
Proof.
  assert (H : incident_window [late_record; early_record]
              = Returned (Some (1762189940000000, 1762188140000000)%Z))
    by (vm_compute; reflexivity).
  split; [exact H|].
  exact (proj2 (proj2 (incident_window_latest_anomaly [late_record; early_record]))
           _ _ H).
Defined.

(** ** The upload destination *)

Lemma has_slash_app (a b : string) :
  PyStr.has_slash (a ++ b) = PyStr.has_slash a || PyStr.has_slash b.
Proof.
  induction a as [|ch a IH]; simpl; [reflexivity|].
  now rewrite IH, orb_assoc.
Qed.

Lemma basename_no_slash (p : string) :
  PyStr.has_slash p = false -> PyStr.basename p = p.
Proof.
  destruct p as [|ch p]; simpl; [reflexivity|].
  intros H. apply orb_false_elim in H. destruct H as [Hc Hp].
  now rewrite Hp, Hc.
Qed.

Lemma basename_after_slash (a b : string) :
  PyStr.has_slash b = false ->
  PyStr.basename (a ++ String PyStr.slash b) = b.
Proof.
  intros Hb. induction a as [|ch a IH]; simpl.
  - now rewrite Hb.
  - rewrite has_slash_app. simpl. rewrite orb_true_r. exact IH.
Qed.

Lemma basename_has_no_slash (p : string) :
  PyStr.has_slash (PyStr.basename p) = false.
Proof.
  induction p as [|ch p IH]; simpl; [reflexivity|].
  destruct (PyStr.has_slash p) eqn:Hp; [exact IH|].
  destruct (Ascii.eqb ch PyStr.slash) eqn:Hc; [exact Hp|].
  simpl. now rewrite Hc, Hp.
Qed.

Lemma rstrip_slash_snoc (d : string) :
  PyStr.rstrip_slash (d ++ "/") = PyStr.rstrip_slash d.
Proof.
  induction d as [|ch d IH]; simpl; [reflexivity|]. now rewrite IH.
Qed.

(** X14. The destination of an upload keeps the file name of the report:
    its last component is the base name of the local path, whatever the
    directory configured and the local path. *)
Theorem gcs_destination_keeps_basename (gcs_dir local_path : string) :
  PyStr.basename (gcs_destination gcs_dir local_path) = PyStr.basename local_path
  /\ PyStr.has_slash (PyStr.basename local_path) = false.
Proof.
  split; [|apply basename_has_no_slash].
  unfold gcs_destination.
  change ("/" ++ PyStr.basename local_path)%string
    with (String PyStr.slash (PyStr.basename local_path)).
  apply basename_after_slash, basename_has_no_slash.
Qed.

(** X15. For a non-empty [ARTIFACTS_GCS_DIR], one more ['/'] at its end
    changes neither the destination nor the command [upload_to_gcs] runs.
    The empty value is the exception: it skips the upload, while ["/"]
    uploads to ['/'] followed by the base name. *)
Theorem gcs_destination_ignores_trailing_slash (gcs_dir local_path : string) :
  gcs_destination (gcs_dir ++ "/") local_path
  = gcs_destination gcs_dir local_path
  /\ (gcs_dir <> EmptyString ->
      upload_to_gcs (gcs_dir ++ "/") local_path
      = upload_to_gcs gcs_dir local_path)
  /\ upload_to_gcs "" local_path = None
  /\ upload_to_gcs "/" local_path
     = Some ["gsutil"; "cp"; local_path;
             "/" ++ PyStr.basename local_path]%string.
Proof.
  assert (H : gcs_destination (gcs_dir ++ "/") local_path
              = gcs_destination gcs_dir local_path).
  { unfold gcs_destination. now rewrite rstrip_slash_snoc. }
  split; [exact H|]. split; [|split; reflexivity].
  intros Hne. unfold upload_to_gcs. rewrite H.
  destruct gcs_dir as [|ch d]; [contradiction|reflexivity].
Qed.

Lemma gcs_destination_ignores_trailing_slash_witness :
  ("gs://artifacts/rca"%string <> EmptyString)
  /\ upload_to_gcs "gs://artifacts/rca" "rca_reports/incident_42.md"
     = Some ["gsutil"; "cp"; "rca_reports/incident_42.md";
             "gs://artifacts/rca/incident_42.md"]%string
  /\ upload_to_gcs ("gs://artifacts/rca" ++ "/") "rca_reports/incident_42.md"
     = upload_to_gcs "gs://artifacts/rca" "rca_reports/incident_42.md".
Proof.
  assert (Hne : "gs://artifacts/rca"%string <> EmptyString) by discriminate.
  split; [exact Hne|]. split; [reflexivity|].
  exact (proj1 (proj2 (gcs_destination_ignores_trailing_slash
                         "gs://artifacts/rca" "rca_reports/incident_42.md"))
           Hne).
Defined.

(** X16. When [ARTIFACTS_GCS_DIR] is not empty and the incident id has no
    ['/'], [upload_to_gcs] on the report [rca_reports/incident_<id>.md]
    runs [gsutil cp] from that path to [incident_<id>.md] in the configured
    directory, its trailing slashes removed; when [ARTIFACTS_GCS_DIR] is
    empty, nothing is run. *)
Theorem rca_report_object_name (gcs_dir incident_id : string) :
  (gcs_dir <> EmptyString ->
   PyStr.has_slash incident_id = false ->
   upload_to_gcs gcs_dir (local_rca_path incident_id)
   = Some ["gsutil"; "cp"; local_rca_path incident_id;
           PyStr.rstrip_slash gcs_dir
           ++ "/incident_" ++ incident_id ++ ".md"]%string)
  /\ upload_to_gcs "" (local_rca_path incident_id) = None.
Proof.
  split; [|reflexivity]. intros Hne Hid.
  assert (Hdest : gcs_destination gcs_dir (local_rca_path incident_id)
                  = (PyStr.rstrip_slash gcs_dir ++ "/incident_" ++ incident_id
                     ++ ".md")%string).
  { unfold gcs_destination, local_rca_path.
    change ("rca_reports/incident_" ++ incident_id ++ ".md")%string
      with ("rca_reports"
            ++ String PyStr.slash ("incident_" ++ incident_id ++ ".md"))%string.
    rewrite basename_after_slash; [reflexivity|].
    rewrite !has_slash_app, Hid. reflexivity. }
  unfold upload_to_gcs. rewrite Hdest.
  destruct gcs_dir as [|ch d]; [contradiction|reflexivity].
Qed.

Lemma rca_report_object_name_witness :
  ("gs://artifacts/rca//"%string <> EmptyString)
  /\ PyStr.has_slash "INC-2025-001" = false
  /\ upload_to_gcs "gs://artifacts/rca//" (local_rca_path "INC-2025-001")
     = Some ["gsutil"; "cp"; "rca_reports/incident_INC-2025-001.md";
             "gs://artifacts/rca/incident_INC-2025-001.md"]%string.
Proof.
  assert (Hne : "gs://artifacts/rca//"%string <> EmptyString) by discriminate.
  assert (Hid : PyStr.has_slash "INC-2025-001" = false) by reflexivity.
  split; [exact Hne|]. split; [exact Hid|].
  exact (proj1 (rca_report_object_name "gs://artifacts/rca//" "INC-2025-001")
           Hne Hid).
Defined.

(** ** [check] under the left-to-right sum, as a whole *)

(** X17. With the left-to-right [sum], [check] is determined on every
    series, whatever the C library: the empty list below two points; else
    [OverflowError] when the square [** 2] of a deviation is infinite; else
    the records of exactly the points above
    [mean + threshold_multiplier * sqrt variance], in the order of the
    series, the variance being the mean of the deviations squared by
    [** 2]. *)
Theorem check_left_to_right_characterised (L : PyFloat.Libm)
  (tr : WindowTrigger) (name : string)
  (series : list point) :
  call_check L false tr name series =
  if (List.length series <? 2)%nat then Returned []
  else if Spec.squares_representable L false (map snd series) then
    Returned
      (map (record_of name
              (Spec.threshold L false (threshold_multiplier tr)
                 (map snd series))
              (window_seconds tr))
         (filter (above (Spec.threshold L false (threshold_multiplier tr)
                           (map snd series)))
            series))
  else Raised OverflowError.
Proof.
  rewrite call_check_spec.
  destruct (List.length series <? 2)%nat; [reflexivity|].
  destruct (Spec.squares_representable L false (map snd series)) eqn:Hrep.
  - now rewrite (threshold_of_spec L false tr _ Hrep
                   (variance_left_to_right_not_negative L _)).
  - now rewrite (threshold_of_overflow L false tr _ Hrep).
Qed.

(** ** From [detect_anomalies] to the incident window *)

Lemma grouped_In (P : nat -> string -> list models.MetricAnomaly -> Prop)
  (r : models.MetricAnomaly) (ms : list string) :
  forall k groups,
    grouped P k ms groups -> In r (List.concat groups) ->
    exists i m g, (i < List.length ms)%nat /\ P (k + i)%nat m g /\ In r g.
Proof.
  induction ms as [|m ms IH]; intros k [|g groups]; simpl; try easy.
  intros [HP Hrest] Hin. apply in_app_or in Hin. destruct Hin as [Hin|Hin].
  - exists 0%nat, m, g. rewrite Nat.add_0_r. repeat split;
      [lia|assumption|assumption].
  - destruct (IH (S k) groups Hrest Hin) as [i [m' [g' [Hi [HP' Hin']]]]].
    exists (S i), m', g'. rewrite Nat.add_succ_r. repeat split; [lia|assumption|assumption].
Qed.

(** X18. When the five instants read by [detect_anomalies] are valid
    datetimes at least 130 minutes after [datetime.min], [main] never fails
    on the window: for a non-empty result, [triggered_at] and the start of
    the window are defined, and [triggered_at] is between 1 and 100
    minutes before one of those instants. *)
Theorem main_window_defined (L : PyFloat.Libm) (c : bool)
  (clock : nat -> datetime)
  (noise : nat -> nat -> float) (l : list models.MetricAnomaly) :
  (forall k, (k < 5)%nat ->
             (PyTime.datetime_min + 7800 * 1000000 <= clock k
              <= PyTime.datetime_max)%Z) ->
  detect_anomalies L c clock noise = Returned l ->
  l <> [] ->
  exists triggered_at k j,
    incident_window l
    = Returned (Some (triggered_at, (triggered_at - 1800 * 1000000)%Z))
    /\ (k < 5)%nat /\ (1 <= j <= 100)%Z
    /\ triggered_at = (clock k - j * 60 * 1000000)%Z.
Proof.
  intros Hclock Hdet Hne.
  unfold detect_anomalies, init in Hdet.
  apply detect_loop_groups in Hdet. destruct Hdet as [groups [Hl Hgroups]].
  simpl in Hl.
  assert (Hstamp : forall r, In r l ->
            exists k j, (k < 5)%nat /\ (1 <= j <= 100)%Z
                        /\ models.timestamp r = (clock k - j * 60 * 1000000)%Z).
  { intros r Hr. rewrite Hl in Hr.
    destruct (grouped_In _ r metrics 0 groups Hgroups Hr) as [i [m [g [Hi [Hf Hin]]]]].
    apply found_for_records in Hf. destruct Hf as [_ Hall].
    rewrite Forall_forall in Hall. destruct (Hall r Hin) as [_ [_ [j [Hj Hts]]]].
    exists i, j. simpl in Hi. repeat split; try assumption; lia. }
  destruct l as [|r0 l0]; [contradiction|].
  unfold incident_window. cbn [map py_max].
  pose proof (fold_max_spec (map models.timestamp l0) (models.timestamp r0)) as Hmax.
  simpl in Hmax. set (t := fold_left _ _ _) in *.
  destruct Hmax as [Hin _].
  assert (Hr : exists r, In r (r0 :: l0) /\ models.timestamp r = t).
  { destruct Hin as [Hin|Hin].
    - exists r0. split; [now left|assumption].
    - apply in_map_iff in Hin. destruct Hin as [r [Hrt Hr]].
      exists r. split; [now right|assumption]. }
  destruct Hr as [r [Hr Hrt]].
  destruct (Hstamp r Hr) as [k [j [Hk [Hj Hts]]]].
  specialize (Hclock k Hk).
  exists t, k, j.
  assert (Ht : t = (clock k - j * 60 * 1000000)%Z) by congruence.
  repeat split; try assumption; try lia.
  unfold PyTime.minus_seconds. change (1800 / 86400)%Z with 0%Z. simpl andb. cbv iota.
  assert (Hrange : PyTime.in_range (t - 1800 * 1000000) = true).
  { unfold PyTime.in_range. apply andb_true_intro.
    split; apply Z.leb_le; unfold PyTime.datetime_min, PyTime.datetime_max in *; lia. }
  now rewrite Hrange.
Qed.

Lemma main_window_defined_witness :
  (forall k, (k < 5)%nat ->
             (PyTime.datetime_min + 7800 * 1000000 <= quiet_clock k
              <= PyTime.datetime_max)%Z)
  /\ detect_anomalies rounded_libm true quiet_clock quiet_noise = Returned quiet_run
  /\ quiet_run <> []
  /\ exists triggered_at k j,
       incident_window quiet_run
       = Returned (Some (triggered_at, (triggered_at - 1800 * 1000000)%Z))
       /\ (k < 5)%nat /\ (1 <= j <= 100)%Z
       /\ triggered_at = (quiet_clock k - j * 60 * 1000000)%Z.
Proof.
  assert (H1 : forall k, (k < 5)%nat ->
                 (PyTime.datetime_min + 7800 * 1000000 <= quiet_clock k
                  <= PyTime.datetime_max)%Z).
  { intros k _. unfold quiet_clock, sample_now, PyTime.datetime_min, PyTime.datetime_max. lia. }
  assert (H2 : detect_anomalies rounded_libm true quiet_clock quiet_noise = Returned quiet_run)
    by (vm_compute; reflexivity).
  assert (H3 : quiet_run <> []) by discriminate.
  split; [exact H1|]. split; [exact H2|]. split; [exact H3|].
  exact (main_window_defined rounded_libm true quiet_clock quiet_noise quiet_run H1 H2 H3).
Defined.
